(** * Cogman, [infra/mongo.go]: the MongoDB data-access layer

    A shallow embedding of the [MongoClient] methods and a verification of
    their session-tracking, index-management and CRUD contracts.

    The MongoDB driver (package [mongo]) is an external collaborator.  It is
    modelled as an arbitrary [mongo.Driver]: a world type together with a
    function answering each driver call.  Every method of [MongoClient] is a
    computation over a [State] that holds the receiver, the driver's world
    and the trace of the driver calls issued so far, so that the theorems
    hold for every driver and every world. *)

From Stdlib Require Import ZArith String List Bool Lia.
From Stdlib Require Import Floats.PrimFloat Floats.FloatOps Floats.SpecFloat.
From Stdlib Require Floats.FloatAxioms.
From Stdlib Require Import Numbers.Cyclic.Int63.Uint63.
From stdpp Require Import base option gmap strings list.

Local Open Scope string_scope.
Local Open Scope list_scope.
Local Open Scope Z_scope.

(** ** Go integers and conversions *)

(** A signed [w]-bit integer is a [Z] in [[-2^(w-1), 2^(w-1))]; a conversion
    to a [w]-bit type keeps the low [w] bits. *)
Definition wrap (w z : Z) : Z := (z + 2 ^ (w - 1)) mod 2 ^ w - 2 ^ (w - 1).

Definition int64 (z : Z) : Z := wrap 64 z.

(** Go's [int] is 32 or 64 bits wide; every [int] is in the 64-bit range. *)
Definition is_int (z : Z) : Prop := - 2 ^ 63 <= z < 2 ^ 63.

Definition is_int32 (z : Z) : bool := (- 2 ^ 31 <=? z) && (z <? 2 ^ 31).

(** ** [time.Duration] *)

(** A [Duration] is an [int64] count of nanoseconds. *)
Definition Duration : Type := Z.

Definition Second : Duration := 1000000000.

(** [float64(n)] for an integer of magnitude below [2^63]. *)
Definition float64_of_int (n : Z) : float :=
  if n <? 0 then PrimFloat.opp (PrimFloat.of_uint63 (Uint63.of_Z (- n)))
  else PrimFloat.of_uint63 (Uint63.of_Z n).

(** [func (d Duration) Seconds() float64]:
    [sec := d / Second; nsec := d % Second;
     return float64(sec) + float64(nsec)/1e9]. *)
Definition Seconds (d : Duration) : float :=
  let sec := Z.quot d Second in
  let nsec := Z.rem d Second in
  PrimFloat.add (float64_of_int sec)
                (PrimFloat.div (float64_of_int nsec) 1e9%float).

(** The integer part of a finite float, rounding toward zero. *)
Definition truncate (f : float) : option Z :=
  match Prim2SF f with
  | S754_zero _ => Some 0
  | S754_finite s m e =>
      let mag := if 0 <=? e then Z.pos m * 2 ^ e else Z.pos m / 2 ^ (- e) in
      Some (if s then - mag else mag)
  | S754_infinity _ | S754_nan => None
  end.

(** [int32(f)]: the fraction is discarded; when the value does not fit, Go
    leaves the result to the implementation, here [unrepresentable f]. *)
Definition int32_of_float64 (unrepresentable : float -> Z) (f : float) : Z :=
  match truncate f with
  | Some z => if is_int32 z then z else unrepresentable f
  | None => unrepresentable f
  end.

(** ** [context.Context] *)

Inductive GoContext : Type :=
| Background
| WithCancel (parent : GoContext)
| CallerContext (tag : nat).

(** The request context every index and CRUD method builds:
    [context.WithCancel(context.Background())]. *)
Definition request_ctx : GoContext := WithCancel Background.

(** ** Package [bson] *)

Module bson.

(** [bson.E{Key, Value}]; the source only stores the ints [1] and [-1]. *)
Record E : Type := { Key : string; Value : Z }.

Definition D : Type := list E.

End bson.

(** ** Package [options] *)

Module options.

(** Every field is a pointer in the driver: unset is [None]. *)
Record IndexOptions : Type := {
  Name : option string;
  ExpireAfterSeconds : option Z;
  Sparse : option bool;
  Unique : option bool
}.

(** [&options.IndexOptions{}] *)
Definition Index : IndexOptions :=
  {| Name := None; ExpireAfterSeconds := None; Sparse := None; Unique := None |}.

Definition SetName (n : string) (o : IndexOptions) : IndexOptions :=
  {| Name := Some n; ExpireAfterSeconds := ExpireAfterSeconds o;
     Sparse := Sparse o; Unique := Unique o |}.

Definition SetExpireAfterSeconds (n : Z) (o : IndexOptions) : IndexOptions :=
  {| Name := Name o; ExpireAfterSeconds := Some n;
     Sparse := Sparse o; Unique := Unique o |}.

Definition SetSparse (b : bool) (o : IndexOptions) : IndexOptions :=
  {| Name := Name o; ExpireAfterSeconds := ExpireAfterSeconds o;
     Sparse := Some b; Unique := Unique o |}.

Definition SetUnique (b : bool) (o : IndexOptions) : IndexOptions :=
  {| Name := Name o; ExpireAfterSeconds := ExpireAfterSeconds o;
     Sparse := Sparse o; Unique := Some b |}.

Record FindOptions : Type := { Skip : option Z; Limit : option Z }.

(** [options.Find()] *)
Definition Find : FindOptions := {| Skip := None; Limit := None |}.

Definition SetSkip (n : Z) (o : FindOptions) : FindOptions :=
  {| Skip := Some n; Limit := Limit o |}.

Definition SetLimit (n : Z) (o : FindOptions) : FindOptions :=
  {| Skip := Skip o; Limit := Some n |}.

End options.

(** ** Package [mongo]: what the layer sees of the driver *)

Module mongo.

(** Errors the driver returns. [ErrNoDocuments] is the driver's own
    sentinel for a [FindOne] that matched nothing. *)
Inductive Error : Type :=
| ErrNoDocuments
| CommandError (msg : string).

(** [*mongo.Client] and [mongo.Session] values handed out by the driver;
    a handle is never nil. *)
Definition Client : Type := nat.
Definition Session : Type := nat.

(** [readpref.Primary()] *)
Inductive ReadPref : Type := Primary.

(** [client.Database(db).Collection(name)]: a handle, built without I/O. *)
Record Collection : Type := {
  col_client : Client;
  col_database : string;
  col_name : string
}.

Record IndexModel : Type := { Keys : bson.D; Options : options.IndexOptions }.

Record UpdateResult : Type := {
  MatchedCount : Z;
  ModifiedCount : Z;
  UpsertedCount : Z
}.

Section Values.
(** [Any] stands for the documents, filters and pipelines ([interface{}],
    [bson.M]) that the layer passes through without looking at them. *)
Context {Any : Type}.

(** [*mongo.SingleResult] with its [Err()]. *)
Record SingleResult : Type := { sr_err : option Error; sr_doc : option Any }.

(** [*mongo.Cursor] with its [Err()]. *)
Record Cursor : Type := { cur_err : option Error; cur_docs : list Any }.

(** The driver calls the layer makes. *)
Inductive Call : Type :=
| Connect (uri : string)
| StartSession (c : Client)
| SessionStartTransaction (s : Session)
| SessionCommitTransaction (s : Session) (ctx : GoContext)
| SessionEndSession (s : Session) (ctx : GoContext)
| ClientPing (c : Client) (ctx : GoContext) (rp : ReadPref)
| ClientDisconnect (c : Client) (ctx : GoContext)
| ClientConnect (c : Client) (ctx : GoContext)
| IndexDropOne (col : Collection) (ctx : GoContext) (name : string)
| IndexCreateOne (col : Collection) (ctx : GoContext) (model : IndexModel)
| IndexCreateMany (col : Collection) (ctx : GoContext) (models : list IndexModel)
| IndexDropAll (col : Collection) (ctx : GoContext)
| FindOne (col : Collection) (ctx : GoContext) (q : Any)
| InsertOne (col : Collection) (ctx : GoContext) (t : Any)
| ReplaceOne (col : Collection) (ctx : GoContext) (q val : Any)
| UpdateOne (col : Collection) (ctx : GoContext) (q val : Any)
| Find (col : Collection) (ctx : GoContext) (q : Any) (opt : options.FindOptions)
| Aggregate (col : Collection) (ctx : GoContext) (q : Any).

(** What each call returns.  A Go pair [(v, err)] whose [v] the layer uses
    only when [err] is nil is a sum; results the layer drops are left out. *)
Definition Reply (c : Call) : Type :=
  match c with
  | Connect _ => (Error + Client)%type
  | StartSession _ => (Error + Session)%type
  | SessionStartTransaction _ => option Error
  | SessionCommitTransaction _ _ => option Error
  | SessionEndSession _ _ => unit
  | ClientPing _ _ _ => option Error
  | ClientDisconnect _ _ => option Error
  | ClientConnect _ _ => option Error
  | IndexDropOne _ _ _ => option Error
  | IndexCreateOne _ _ _ => (string * option Error)%type
  | IndexCreateMany _ _ _ => (list string * option Error)%type
  | IndexDropAll _ _ => option Error
  | FindOne _ _ _ => SingleResult
  | InsertOne _ _ _ => option Error
  | ReplaceOne _ _ _ _ => (Error + UpdateResult)%type
  | UpdateOne _ _ _ _ => (Error + UpdateResult)%type
  | Find _ _ _ _ => (Error + Cursor)%type
  | Aggregate _ _ _ => (Error + Cursor)%type
  end.

(** A driver answers every call from its current world. *)
Record Driver : Type := {
  World : Type;
  respond : forall c : Call, World -> Reply c * World
}.

End Values.

Arguments SingleResult : clear implicits.
Arguments Cursor : clear implicits.
Arguments Call : clear implicits.
Arguments Driver : clear implicits.

End mongo.

(** ** Package [infra] *)

(** The package's errors: its own sentinel and whatever the driver returned. *)
Inductive error : Type :=
| ErrNotFound
| DriverError (e : mongo.Error).

(** A Go [interface{}] result: [nil], or the index name [CreateOne] gave. *)
Inductive iface : Type :=
| Nil
| IString (s : string).

(** A run-time panic: a method called through a nil interface value. *)
Inductive RuntimePanic : Type := NilDereference.

Inductive Outcome (A : Type) : Type :=
| Return (a : A)
| Panic (p : RuntimePanic).

Arguments Return {A} a.
Arguments Panic {A} p.

Definition database : string := "cogman".
Definition tableTasks : string := "tasks".

(** [type MongoClient struct] *)
Record MongoClient : Type := {
  URL : string;
  ExpDur : Z;
  mcl : mongo.Client;
  sess : gmap string mongo.Session
}.

(** [type IndexKey struct] *)
Record IndexKey : Type := { Key : string; Desc : bool }.

(** [type Index struct] *)
Record Index : Type := {
  Keys : list IndexKey;
  Name : string;
  Unique : bool;
  Sparse : bool
}.

(** [func (i *Index) model() mongo.IndexModel]: the loop appends one
    element per key; the name is set only when it is not empty. *)
Definition model (i : Index) : mongo.IndexModel :=
  let keys :=
    fold_left
      (fun (keys : bson.D) (k : IndexKey) =>
         let d := if Desc k then -1 else 1 in
         keys ++ [ {| bson.Key := Key k; bson.Value := d |} ])
      (Keys i) [] in
  let opts := options.Index in
  let opts := if String.eqb (Name i) "" then opts
              else options.SetName (Name i) opts in
  let opts := options.SetSparse (Sparse i) opts in
  let opts := options.SetUnique (Unique i) opts in
  {| mongo.Keys := keys; mongo.Options := opts |}.

Section infra.

Context {Any : Type} (drv : mongo.Driver Any).

(** What a method runs in: the receiver [*m], the driver's world, and the
    driver calls issued so far, oldest first. *)
Record State : Type := {
  self : MongoClient;
  world : mongo.World drv;
  trace : list (mongo.Call Any)
}.

(** A method body: it returns or panics, and leaves a state behind. *)
Definition Go (A : Type) : Type := State -> Outcome A * State.

#[local] Instance Go_ret : MRet Go := fun A a st => (Return a, st).

#[local] Instance Go_bind : MBind Go := fun A B k c st =>
  match c st with
  | (Return a, st') => k a st'
  | (Panic p, st') => (Panic p, st')
  end.

(** One call into the driver: the reply is the driver's, the world moves
    on, the call is recorded. The receiver is out of the driver's reach. *)
Definition call (c : mongo.Call Any) : Go (mongo.Reply c) := fun st =>
  let '(r, w) := mongo.respond drv c (world st) in
  (Return r, {| self := self st; world := w; trace := trace st ++ [c] |}).

(** [m] *)
Definition this : Go MongoClient := fun st => (Return (self st), st).

(** [m.sess[id]]: the zero value, a nil interface, when [id] is missing. *)
Definition sess_index (id : string) : Go (option mongo.Session) := fun st =>
  (Return (sess (self st) !! id), st).

(** The receiver of a method call on a [mongo.Session] interface value. *)
Definition receiver (v : option mongo.Session) : Go mongo.Session := fun st =>
  match v with
  | Some s => (Return s, st)
  | None => (Panic NilDereference, st)
  end.

Definition with_sess (f : gmap string mongo.Session -> gmap string mongo.Session)
    (m : MongoClient) : MongoClient :=
  {| URL := URL m; ExpDur := ExpDur m; mcl := mcl m; sess := f (sess m) |}.

(** [m.sess[id] = s] *)
Definition sess_assign (id : string) (s : mongo.Session) : Go unit := fun st =>
  (Return tt, {| self := with_sess (insert id s) (self st);
                 world := world st; trace := trace st |}).

(** [delete(m.sess, id)] *)
Definition sess_delete (id : string) : Go unit := fun st =>
  (Return tt, {| self := with_sess (delete id) (self st);
                 world := world st; trace := trace st |}).

(** An [error] value made of the driver's. *)
Definition driver_err (e : option mongo.Error) : option error :=
  DriverError <$> e.

(** [func (m *MongoClient) StartTransaction(id string) (interface{}, error)] *)
Definition StartTransaction (id : string) : Go (iface * option error) :=
  m ← this;
  r ← call (mongo.StartSession (mcl m));
  match r with
  | inl err => mret (Nil, Some (DriverError err))
  | inr s =>
      _ ← sess_assign id s;
      v ← sess_index id;
      s' ← receiver v;
      e ← call (mongo.SessionStartTransaction s');
      mret (Nil, driver_err e)
  end.

(** [func (m *MongoClient) CommitTransaction(id string, ctx context.Context)
    (interface{}, error)] *)
Definition CommitTransaction (id : string) (ctx : GoContext)
  : Go (iface * option error) :=
  v ← sess_index id;
  s ← receiver v;
  err ← call (mongo.SessionCommitTransaction s ctx);
  match err with
  | Some e => mret (Nil, Some (DriverError e))
  | None =>
      v' ← sess_index id;
      s' ← receiver v';
      _ ← call (mongo.SessionEndSession s' ctx);
      _ ← sess_delete id;
      mret (Nil, None)
  end.

(** [func (m *MongoClient) Ping() error] *)
Definition Ping : Go (option error) :=
  m ← this;
  e ← call (mongo.ClientPing (mcl m) Background mongo.Primary);
  mret (driver_err e).

(** [func (m *MongoClient) getCollection()], returning a collection and an
    error *)
Definition getCollection : Go (mongo.Collection * option error) :=
  m ← this;
  mret ({| mongo.col_client := mcl m;
           mongo.col_database := database;
           mongo.col_name := tableTasks |}, None).

(** [func (m *MongoClient) SetTTL() (interface{}, error)].  The deferred
    [cancel()] of the request context has no effect on the receiver. *)
Definition SetTTL : Go (iface * option error) :=
  let ctx := request_ctx in
  '(col, err) ← getCollection;
  match err with
  | Some e => mret (Nil, Some e)
  | None =>
      _ ← call (mongo.IndexDropOne col ctx "TTL");
      m ← this;
      let opts := options.Index in
      let opts := options.SetName "TTL" opts in
      let opts := options.SetExpireAfterSeconds (ExpDur m) opts in
      let model :=
        {| mongo.Keys := [ {| bson.Key := "created_at"; bson.Value := 1 |} ];
           mongo.Options := opts |} in
      '(name, e) ← call (mongo.IndexCreateOne col ctx model);
      mret (IString name, driver_err e)
  end.

(** [func (m *MongoClient) EnsureIndices(indices []Index) error] *)
Definition EnsureIndices (indices : list Index) : Go (option error) :=
  let ctx := request_ctx in
  '(col, err) ← getCollection;
  match err with
  | Some e => mret (Some e)
  | None =>
      let models :=
        fold_left (fun (models : list mongo.IndexModel) (ind : Index) =>
                     models ++ [model ind])
                  indices [] in
      '(_, err) ← call (mongo.IndexCreateMany col ctx models);
      match err with
      | Some e => mret (Some (DriverError e))
      | None => mret None
      end
  end.

(** [func (m *MongoClient) DropIndices() error] *)
Definition DropIndices : Go (option error) :=
  let ctx := request_ctx in
  '(col, err) ← getCollection;
  match err with
  | Some e => mret (Some e)
  | None =>
      err ← call (mongo.IndexDropAll col ctx);
      mret (driver_err err)
  end.

(** [func (m *MongoClient) Close() error] *)
Definition Close : Go (option error) :=
  m ← this;
  e ← call (mongo.ClientDisconnect (mcl m) Background);
  mret (driver_err e).

(** [func (m *MongoClient) Connect() error] *)
Definition Connect : Go (option error) :=
  m ← this;
  err ← call (mongo.ClientConnect (mcl m) Background);
  match err with
  | Some e => mret (Some (DriverError e))
  | None => mret None
  end.

(** [func (m *MongoClient) Get(q bson.M)], returning a single result and an
    error *)
Definition Get (q : Any) : Go (option (mongo.SingleResult Any) * option error) :=
  let ctx := request_ctx in
  '(col, err) ← getCollection;
  match err with
  | Some e => mret (None, Some e)
  | None =>
      resp ← call (mongo.FindOne col ctx q);
      match mongo.sr_err resp with
      | Some e => mret (None, Some (DriverError e))
      | None => mret (Some resp, None)
      end
  end.

(** [func (m *MongoClient) Create(t interface{}) error] *)
Definition Create (t : Any) : Go (option error) :=
  let ctx := request_ctx in
  '(col, err) ← getCollection;
  match err with
  | Some e => mret (Some e)
  | None =>
      err ← call (mongo.InsertOne col ctx t);
      mret (driver_err err)
  end.

(** [func (m *MongoClient) Update(q, val interface{}) error] *)
Definition Update (q val : Any) : Go (option error) :=
  let ctx := request_ctx in
  '(col, err) ← getCollection;
  match err with
  | Some e => mret (Some e)
  | None =>
      r ← call (mongo.ReplaceOne col ctx q val);
      match r with
      | inl e => mret (Some (DriverError e))
      | inr resp =>
          if mongo.MatchedCount resp =? 0 then mret (Some ErrNotFound)
          else mret None
      end
  end.

(** [func (m *MongoClient) UpdatePartial(q, val interface{}) error] *)
Definition UpdatePartial (q val : Any) : Go (option error) :=
  let ctx := request_ctx in
  '(col, err) ← getCollection;
  match err with
  | Some e => mret (Some e)
  | None =>
      r ← call (mongo.UpdateOne col ctx q val);
      match r with
      | inl e => mret (Some (DriverError e))
      | inr resp =>
          if mongo.MatchedCount resp =? 0 then mret (Some ErrNotFound)
          else mret None
      end
  end.

(** [func (m *MongoClient) List(q interface{}, skip, limit int)], returning
    a cursor and an error *)
Definition List (q : Any) (skip limit : Z)
  : Go (option (mongo.Cursor Any) * option error) :=
  let ctx := request_ctx in
  '(col, err) ← getCollection;
  match err with
  | Some e => mret (None, Some e)
  | None =>
      let opt := options.SetLimit (int64 limit)
                   (options.SetSkip (int64 skip) options.Find) in
      r ← call (mongo.Find col ctx q opt);
      match r with
      | inl e => mret (None, Some (DriverError e))
      | inr cursor =>
          match mongo.cur_err cursor with
          | Some e => mret (None, Some (DriverError e))
          | None => mret (Some cursor, None)
          end
      end
  end.

(** [func (m *MongoClient) Aggregate(q interface{})], returning a cursor and
    an error *)
Definition Aggregate (q : Any) : Go (option (mongo.Cursor Any) * option error) :=
  let ctx := request_ctx in
  '(col, err) ← getCollection;
  match err with
  | Some e => mret (None, Some e)
  | None =>
      r ← call (mongo.Aggregate col ctx q);
      match r with
      | inl e => mret (None, Some (DriverError e))
      | inr cursor =>
          match mongo.cur_err cursor with
          | Some e => mret (None, Some (DriverError e))
          | None => mret (Some cursor, None)
          end
      end
  end.

(** [func NewMongoClient(url string, ttl time.Duration)], returning a client
    and an error.  There is no receiver yet: the function runs on the
    driver's world and the trace alone.  [unrepresentable] is what the
    platform makes of [int32(f)] when [f] does not fit. *)
Definition NewMongoClient (unrepresentable : float -> Z)
    (url : string) (ttl : Duration)
    (w : mongo.World drv) (tr : list (mongo.Call Any))
  : (option MongoClient * option error) * mongo.World drv * list (mongo.Call Any) :=
  let c := mongo.Connect url in
  let '(r, w') := mongo.respond drv c w in
  match r with
  | inl err => ((None, Some (DriverError err)), w', tr ++ [c])
  | inr conn =>
      ((Some {| URL := url;
                ExpDur := int32_of_float64 unrepresentable (Seconds ttl);
                mcl := conn;
                sess := ∅ |}, None), w', tr ++ [c])
  end.

End infra.

Arguments self {Any drv} s.
Arguments world {Any drv} s.
Arguments trace {Any drv} s.

(** ** A small in-memory driver

    One concrete [mongo.Driver], used to run the methods on explicit
    inputs.  Documents and filters are strings; a filter matches the
    documents equal to it, and the empty filter matches all of them. *)

Module Stub.

Record World : Type := {
  next_session : nat;
  start_transaction_error : option mongo.Error;
  commit_error : option mongo.Error;
  documents : list string
}.

Definition matches (q doc : string) : bool :=
  String.eqb q "" || String.eqb q doc.

Definition with_documents (docs : list string) (w : World) : World :=
  {| next_session := next_session w;
     start_transaction_error := start_transaction_error w;
     commit_error := commit_error w;
     documents := docs |}.

(** The first document matching [q] becomes [f] of it. *)
Fixpoint update_first (q : string) (f : string -> string) (docs : list string)
  : list string :=
  match docs with
  | [] => []
  | d :: rest =>
      if matches q d then f d :: rest else d :: update_first q f rest
  end.

Definition update (q : string) (f : string -> string) (w : World)
  : (mongo.Error + mongo.UpdateResult) * World :=
  let n := if existsb (matches q) (documents w) then 1 else 0 in
  (inr {| mongo.MatchedCount := n; mongo.ModifiedCount := n;
          mongo.UpsertedCount := 0 |},
   with_documents (update_first q f (documents w)) w).

(** The store's convention for a find: skip first, then cap; a limit of
    zero is no limit. *)
Definition find (q : string) (opt : options.FindOptions) (w : World)
  : list string :=
  let found := filter (fun d => Is_true (matches q d)) (documents w) in
  let skipped := drop (Z.to_nat (default 0 (options.Skip opt))) found in
  match options.Limit opt with
  | None => skipped
  | Some n => if n =? 0 then skipped else take (Z.to_nat (Z.abs n)) skipped
  end.

Definition index_name (m : mongo.IndexModel) : string :=
  default "" (options.Name (mongo.Options m)).

Definition respond (c : mongo.Call string) (w : World)
  : mongo.Reply c * World :=
  match c as c0 return mongo.Reply c0 * World with
  | mongo.Connect uri =>
      (if String.eqb uri "" then inl (mongo.CommandError "error parsing uri")
       else inr 1%nat, w)
  | mongo.StartSession _ =>
      (inr (next_session w),
       {| next_session := S (next_session w);
          start_transaction_error := start_transaction_error w;
          commit_error := commit_error w;
          documents := documents w |})
  | mongo.SessionStartTransaction _ => (start_transaction_error w, w)
  | mongo.SessionCommitTransaction _ _ => (commit_error w, w)
  | mongo.SessionEndSession _ _ => (tt, w)
  | mongo.ClientPing _ _ _ => (None, w)
  | mongo.ClientDisconnect _ _ => (None, w)
  | mongo.ClientConnect _ _ => (None, w)
  | mongo.IndexDropOne _ _ _ => (Some (mongo.CommandError "index not found"), w)
  | mongo.IndexCreateOne _ _ m => ((index_name m, None), w)
  | mongo.IndexCreateMany _ _ ms => ((map index_name ms, None), w)
  | mongo.IndexDropAll _ _ => (None, w)
  | mongo.FindOne _ _ q =>
      (match find q options.Find w with
       | d :: _ => {| mongo.sr_err := None; mongo.sr_doc := Some d |}
       | [] => {| mongo.sr_err := Some mongo.ErrNoDocuments;
                  mongo.sr_doc := None |}
       end, w)
  | mongo.InsertOne _ _ t => (None, with_documents (documents w ++ [t]) w)
  | mongo.ReplaceOne _ _ q val => update q (fun _ => val) w
  | mongo.UpdateOne _ _ q val => update q (fun d => d +:+ val) w
  | mongo.Find _ _ q opt =>
      (inr {| mongo.cur_err := None; mongo.cur_docs := find q opt w |}, w)
  | mongo.Aggregate _ _ q =>
      (inr {| mongo.cur_err := None; mongo.cur_docs := documents w |}, w)
  end.

Definition driver : mongo.Driver string :=
  {| mongo.World := World; mongo.respond := respond |}.

(** A store of ten documents on which every call succeeds. *)
Definition healthy : World :=
  {| next_session := 7;
     start_transaction_error := None;
     commit_error := None;
     documents := ["d0"; "d1"; "d2"; "d3"; "d4"; "d5"; "d6"; "d7"; "d8"; "d9"] |}.

(** What the driver answers a transaction start when the client's write
    concern is unacknowledged. *)
Definition unacknowledged : mongo.Error :=
  mongo.CommandError
    "transactions do not support unacknowledged write concerns".

(** The same store behind such a client. *)
Definition no_transactions : World :=
  {| next_session := 7;
     start_transaction_error := Some unacknowledged;
     commit_error := None;
     documents := documents healthy |}.

(** The same store when commits fail. *)
Definition failing_commit : World :=
  {| next_session := 7;
     start_transaction_error := None;
     commit_error := Some (mongo.CommandError "commit aborted");
     documents := documents healthy |}.

(** A client as [NewMongoClient] builds it, with a TTL of one hour. *)
Definition client : MongoClient :=
  {| URL := "mongodb://localhost:27017"; ExpDur := 3600; mcl := 1%nat;
     sess := ∅ |}.

Definition start (w : World) : State driver := Build_State driver client w [].

(** [int32(f)] for an [f] that does not fit, as amd64 computes it. *)
Definition indefinite (f : float) : Z := - 2 ^ 31.

(** A state in which ["tx-1"] is mapped to session [7]. *)
Definition active (w : World) : State driver :=
  Build_State driver (with_sess (insert "tx-1" 7%nat) client) w [].

End Stub.

(** ** An unreachable deployment

    A second driver: every call that can fail does, with the same error. *)

Module Offline.

Definition timeout : mongo.Error :=
  mongo.CommandError "server selection timeout".

Definition respond (c : mongo.Call string) (w : unit)
  : mongo.Reply c * unit :=
  match c as c0 return mongo.Reply c0 * unit with
  | mongo.Connect _ => (inl timeout, w)
  | mongo.StartSession _ => (inl timeout, w)
  | mongo.SessionStartTransaction _ => (Some timeout, w)
  | mongo.SessionCommitTransaction _ _ => (Some timeout, w)
  | mongo.SessionEndSession _ _ => (tt, w)
  | mongo.ClientPing _ _ _ => (Some timeout, w)
  | mongo.ClientDisconnect _ _ => (Some timeout, w)
  | mongo.ClientConnect _ _ => (Some timeout, w)
  | mongo.IndexDropOne _ _ _ => (Some timeout, w)
  | mongo.IndexCreateOne _ _ _ => (("", Some timeout), w)
  | mongo.IndexCreateMany _ _ _ => (([], Some timeout), w)
  | mongo.IndexDropAll _ _ => (Some timeout, w)
  | mongo.FindOne _ _ _ =>
      ({| mongo.sr_err := Some timeout; mongo.sr_doc := None |}, w)
  | mongo.InsertOne _ _ _ => (Some timeout, w)
  | mongo.ReplaceOne _ _ _ _ => (inl timeout, w)
  | mongo.UpdateOne _ _ _ _ => (inl timeout, w)
  | mongo.Find _ _ _ _ => (inl timeout, w)
  | mongo.Aggregate _ _ _ => (inl timeout, w)
  end.

Definition driver : mongo.Driver string :=
  {| mongo.World := unit; mongo.respond := respond |}.

(** A client built while the deployment was reachable. *)
Definition start : State driver := Build_State driver Stub.client tt [].

End Offline.

(** ** Vocabulary of the contracts *)

(** The collection the layer is bound to, as the specification names it. *)
Definition tasks (m : MongoClient) : mongo.Collection :=
  {| mongo.col_client := mcl m;
     mongo.col_database := "cogman";
     mongo.col_name := "tasks" |}.

(** The TTL index of the specification: one ascending key on the creation
    timestamp, named ["TTL"], expiring after [secs] seconds. *)
Definition ttl_index (secs : Z) : mongo.IndexModel :=
  {| mongo.Keys := [ {| bson.Key := "created_at"; bson.Value := 1 |} ];
     mongo.Options :=
       {| options.Name := Some "TTL";
          options.ExpireAfterSeconds := Some secs;
          options.Sparse := None;
          options.Unique := None |} |}.

(** The index model the specification asks for a descriptor. *)
Definition index_of_descriptor (i : Index) : mongo.IndexModel :=
  {| mongo.Keys :=
       map (fun k => {| bson.Key := Key k;
                        bson.Value := if Desc k then -1 else 1 |}) (Keys i);
     mongo.Options :=
       {| options.Name := if decide (Name i = "") then None else Some (Name i);
          options.ExpireAfterSeconds := None;
          options.Sparse := Some (Sparse i);
          options.Unique := Some (Unique i) |} |}.

(** The error contract of [Update] and [UpdatePartial]: [reply] is what the
    store answered, [err] what the method returned. *)
Definition update_contract (reply : mongo.Error + mongo.UpdateResult)
    (err : option error) : Prop :=
  (err = Some ErrNotFound <->
     exists r, reply = inr r /\ mongo.MatchedCount r = 0)
  /\ (err = None <-> exists r, reply = inr r /\ mongo.MatchedCount r <> 0)
  /\ (forall e, reply = inl e -> err = Some (DriverError e)).

(** What [List] and [Aggregate] make of the store's answer. *)
Definition cursor_result {Any : Type} (reply : mongo.Error + mongo.Cursor Any)
  : option (mongo.Cursor Any) * option error :=
  match reply with
  | inl e => (None, Some (DriverError e))
  | inr cur =>
      match mongo.cur_err cur with
      | Some e => (None, Some (DriverError e))
      | None => (Some cur, None)
      end
  end.

(** The driver calls issued between the state [st] and a later one. *)
Definition issued {Any : Type} {drv : mongo.Driver Any} (st st' : State drv)
  : list (mongo.Call Any) :=
  drop (length (trace st)) (trace st').

(** ** Programs over a client

    A caller's program is a sequence of method calls on one client, each
    result dropped; a panic ends it. *)

Inductive Op (Any : Type) : Type :=
| OpStartTransaction (id : string)
| OpCommitTransaction (id : string) (ctx : GoContext)
| OpPing
| OpSetTTL
| OpEnsureIndices (indices : list Index)
| OpDropIndices
| OpClose
| OpConnect
| OpGet (q : Any)
| OpCreate (t : Any)
| OpUpdate (q val : Any)
| OpUpdatePartial (q val : Any)
| OpList (q : Any) (skip limit : Z)
| OpAggregate (q : Any).

Arguments OpStartTransaction {Any} id.
Arguments OpCommitTransaction {Any} id ctx.
Arguments OpPing {Any}.
Arguments OpSetTTL {Any}.
Arguments OpEnsureIndices {Any} indices.
Arguments OpDropIndices {Any}.
Arguments OpClose {Any}.
Arguments OpConnect {Any}.
Arguments OpGet {Any} q.
Arguments OpCreate {Any} t.
Arguments OpUpdate {Any} q val.
Arguments OpUpdatePartial {Any} q val.
Arguments OpList {Any} q skip limit.
Arguments OpAggregate {Any} q.

(** A method call whose result the caller drops. *)
Definition discard {Any : Type} {drv : mongo.Driver Any} {A : Type}
    (c : Go drv A) : Go drv unit := fun st =>
  match c st with
  | (Return _, st') => (Return tt, st')
  | (Panic p, st') => (Panic p, st')
  end.

Definition exec {Any : Type} (drv : mongo.Driver Any) (op : Op Any)
  : Go drv unit :=
  match op with
  | OpStartTransaction id => discard (StartTransaction drv id)
  | OpCommitTransaction id ctx => discard (CommitTransaction drv id ctx)
  | OpPing => discard (Ping drv)
  | OpSetTTL => discard (SetTTL drv)
  | OpEnsureIndices indices => discard (EnsureIndices drv indices)
  | OpDropIndices => discard (DropIndices drv)
  | OpClose => discard (Close drv)
  | OpConnect => discard (Connect drv)
  | OpGet q => discard (Get drv q)
  | OpCreate t => discard (Create drv t)
  | OpUpdate q val => discard (Update drv q val)
  | OpUpdatePartial q val => discard (UpdatePartial drv q val)
  | OpList q skip limit => discard (List drv q skip limit)
  | OpAggregate q => discard (Aggregate drv q)
  end.

Fixpoint run {Any : Type} (drv : mongo.Driver Any) (ops : list (Op Any))
  : Go drv unit := fun st =>
  match ops with
  | [] => (Return tt, st)
  | op :: rest =>
      match exec drv op st with
      | (Return _, st') => run drv rest st'
      | (Panic p, st') => (Panic p, st')
      end
  end.

(** The identifiers a program starts a transaction for. *)
Fixpoint started {Any : Type} (ops : list (Op Any)) : gset string :=
  match ops with
  | [] => ∅
  | OpStartTransaction id :: rest => {[ id ]} ∪ started rest
  | _ :: rest => started rest
  end.


(** The driver calls made on the session [s]. *)
Definition on_session {Any : Type} (s : mongo.Session) (c : mongo.Call Any)
  : bool :=
  match c with
  | mongo.SessionStartTransaction s'
  | mongo.SessionCommitTransaction s' _
  | mongo.SessionEndSession s' _ => Nat.eqb s s'
  | _ => false
  end.

(** ** Tactics *)

(** Unfold one method down to the driver's answers. *)
Ltac go_unfold :=
  unfold StartTransaction, CommitTransaction, Ping, SetTTL, EnsureIndices,
    DropIndices, Close, Connect, Get, Create, Update, UpdatePartial, List,
    Aggregate, getCollection, sess_index, receiver, sess_assign, sess_delete,
    this, call, mbind, mret, Go_bind, Go_ret, database, tableTasks,
    request_ctx;
  cbn [fst snd self world trace].

(** Case on the next answer of the driver. *)
Ltac answer :=
  match goal with
  | |- context [mongo.respond ?d ?c ?w] =>
      let r := fresh "r" in
      let w' := fresh "w" in
      let E := fresh "E" in
      destruct (mongo.respond d c w) as [r w'] eqn:E; cbn in r |- *
  end.

(** ** Lists built by appending *)

Lemma fold_left_snoc_map {A B : Type} (f : A -> B) (l : list A) (acc : list B) :
  fold_left (fun acc x => acc ++ [f x]) l acc = acc ++ map f l.
Proof.
  revert acc. induction l as [|x l IH]; intros acc; cbn [fold_left map].
  - now rewrite app_nil_r.
  - rewrite IH, <- app_assoc. reflexivity.
Qed.

Lemma model_spec (i : Index) : model i = index_of_descriptor i.
Proof.
  unfold model, index_of_descriptor.
  rewrite (fold_left_snoc_map
             (fun k => {| bson.Key := Key k;
                          bson.Value := if Desc k then -1 else 1 |})).
  cbn [app]. f_equal.
  destruct (String.eqb_spec (Name i) "") as [E|E];
    destruct (decide (Name i = "")); try contradiction; reflexivity.
Qed.

(** ** Conversions *)

Lemma int64_id (z : Z) : is_int z -> int64 z = z.
Proof.
  unfold is_int, int64, wrap. intros H.
  change (2 ^ (64 - 1)) with (2 ^ 63).
  rewrite Z.mod_small; [lia|].
  change (2 ^ 64) with (2 * 2 ^ 63). lia.
Qed.

(** ** The contracts, for every driver *)

Section contracts.

Context {Any : Type} (drv : mongo.Driver Any).

Implicit Types (st : State drv) (id : string) (ctx : GoContext).

(** *** Session tracking *)

(** When the driver cannot create a session, [StartTransaction] returns the
    driver's error and the receiver is as it was. *)
Lemma StartTransaction_no_session id st e w1 :
  mongo.respond drv (mongo.StartSession (mcl (self st))) (world st) = (inl e, w1) ->
  StartTransaction drv id st
  = (Return (Nil, Some (DriverError e)),
     Build_State drv (self st) w1
       (trace st ++ [mongo.StartSession (mcl (self st))])).
Proof. intros E. go_unfold. rewrite E. reflexivity. Qed.

(** When the session is created and its transaction starts, [id] is mapped
    to the new session. *)
Lemma StartTransaction_started id st s w1 w2 :
  mongo.respond drv (mongo.StartSession (mcl (self st))) (world st) = (inr s, w1) ->
  mongo.respond drv (mongo.SessionStartTransaction s) w1 = (None, w2) ->
  StartTransaction drv id st
  = (Return (Nil, None),
     Build_State drv (with_sess (insert id s) (self st)) w2
       (trace st ++ [mongo.StartSession (mcl (self st))]
                 ++ [mongo.SessionStartTransaction s])).
Proof.
  intros E1 E2. go_unfold. rewrite E1. cbn.
  unfold with_sess at 1. cbn [sess]. rewrite lookup_insert_eq. cbn.
  rewrite E2. cbn. rewrite <- app_assoc. reflexivity.
Qed.

(** C1. The code does not return an error for an identifier the Session Map
    does not hold: [m.sess[id]] is then the nil interface, the call of
    [CommitTransaction] on it panics, before any driver call and with the
    Session Map as it was. *)
Theorem CommitTransaction_absent_panics id ctx st :
  sess (self st) !! id = None ->
  CommitTransaction drv id ctx st = (Panic NilDereference, st).
Proof. intros H. go_unfold. rewrite H. reflexivity. Qed.

(** C2. The code leaks the entry when the transaction cannot be started on
    the session just created: [StartTransaction] returns the driver's error
    and the Session Map holds the new session under [id]. *)
Theorem StartTransaction_failed_start_keeps_entry id st s w1 e w2 :
  mongo.respond drv (mongo.StartSession (mcl (self st))) (world st) = (inr s, w1) ->
  mongo.respond drv (mongo.SessionStartTransaction s) w1 = (Some e, w2) ->
  fst (StartTransaction drv id st) = Return (Nil, Some (DriverError e))
  /\ sess (self (snd (StartTransaction drv id st))) = <[id := s]> (sess (self st))
  /\ sess (self (snd (StartTransaction drv id st))) !! id = Some s.
Proof.
  intros E1 E2. go_unfold. rewrite E1. cbn.
  unfold with_sess at 1. cbn [sess]. rewrite lookup_insert_eq. cbn.
  rewrite E2. cbn. split; [reflexivity|]. split; [reflexivity|].
  apply lookup_insert_eq.
Qed.

(** C3. On an identifier mapped to a session [s]: when the commit succeeds,
    [CommitTransaction] has committed on [s], then ended [s], and the entry
    is gone; when the commit fails with [e], it returns [e], [s] has not been
    ended, and the receiver, the entry included, is as it was. *)
Theorem CommitTransaction_active id ctx st s :
  sess (self st) !! id = Some s ->
  (forall w1 w2,
     mongo.respond drv (mongo.SessionCommitTransaction s ctx) (world st) = (None, w1) ->
     mongo.respond drv (mongo.SessionEndSession s ctx) w1 = (tt, w2) ->
     CommitTransaction drv id ctx st
     = (Return (Nil, None),
        Build_State drv (with_sess (delete id) (self st)) w2
          (trace st ++ [mongo.SessionCommitTransaction s ctx]
                    ++ [mongo.SessionEndSession s ctx]))
     /\ sess (self (snd (CommitTransaction drv id ctx st))) !! id = None)
  /\ (forall e w1,
        mongo.respond drv (mongo.SessionCommitTransaction s ctx) (world st)
        = (Some e, w1) ->
        CommitTransaction drv id ctx st
        = (Return (Nil, Some (DriverError e)),
           Build_State drv (self st) w1
             (trace st ++ [mongo.SessionCommitTransaction s ctx]))
        /\ sess (self (snd (CommitTransaction drv id ctx st))) !! id = Some s).
Proof.
  intros H. split.
  - intros w1 w2 E1 E2.
    assert (CommitTransaction drv id ctx st
            = (Return (Nil, None),
               Build_State drv (with_sess (delete id) (self st)) w2
                 (trace st ++ [mongo.SessionCommitTransaction s ctx]
                           ++ [mongo.SessionEndSession s ctx]))) as R.
    { go_unfold. rewrite H. cbn. rewrite E1. cbn. rewrite H. cbn.
      rewrite E2. cbn. rewrite <- app_assoc. reflexivity. }
    split; [exact R|]. rewrite R. cbn. apply lookup_delete_eq.
  - intros e w1 E1.
    assert (CommitTransaction drv id ctx st
            = (Return (Nil, Some (DriverError e)),
               Build_State drv (self st) w1
                 (trace st ++ [mongo.SessionCommitTransaction s ctx]))) as R.
    { go_unfold. rewrite H. cbn. rewrite E1. reflexivity. }
    split; [exact R|]. rewrite R. exact H.
Qed.

(** *** CRUD *)

(** A [FindOne] without error gives [Get] its result. *)
Lemma Get_found q st resp w1 :
  mongo.respond drv (mongo.FindOne (tasks (self st)) request_ctx q) (world st)
  = (resp, w1) ->
  mongo.sr_err resp = None ->
  Get drv q st
  = (Return (Some resp, None),
     Build_State drv (self st) w1
       (trace st ++ [mongo.FindOne (tasks (self st)) request_ctx q])).
Proof.
  unfold tasks, request_ctx. intros E H. go_unfold. rewrite E. cbn.
  rewrite H. reflexivity.
Qed.

(** C4. The code does not translate the store's "no match": when [FindOne]
    reports [mongo.ErrNoDocuments], [Get] returns that driver error as it is,
    which is not the layer's [ErrNotFound]. *)
Theorem Get_no_documents_is_driver_error q st resp w1 :
  mongo.respond drv (mongo.FindOne (tasks (self st)) request_ctx q) (world st)
  = (resp, w1) ->
  mongo.sr_err resp = Some mongo.ErrNoDocuments ->
  fst (Get drv q st) = Return (None, Some (DriverError mongo.ErrNoDocuments))
  /\ fst (Get drv q st) <> Return (None, Some ErrNotFound).
Proof.
  unfold tasks, request_ctx. intros E H.
  assert (fst (Get drv q st)
          = Return (None, Some (DriverError mongo.ErrNoDocuments))) as R.
  { go_unfold. rewrite E. cbn. rewrite H. reflexivity. }
  split; [exact R|]. rewrite R. discriminate.
Qed.

Lemma update_contract_holds (reply : mongo.Error + mongo.UpdateResult) :
  update_contract reply
    match reply with
    | inl e => Some (DriverError e)
    | inr resp => if mongo.MatchedCount resp =? 0 then Some ErrNotFound else None
    end.
Proof.
  unfold update_contract. destruct reply as [e|resp].
  - repeat split; try discriminate.
    + intros (r & Hr & _). discriminate.
    + intros (r & Hr & _). discriminate.
    + intros e' [= ->]. reflexivity.
  - destruct (Z.eqb_spec (mongo.MatchedCount resp) 0) as [E|E].
    + repeat split; try discriminate; eauto.
      intros (r & [= <-] & Hr). contradiction.
    + repeat split; try discriminate; eauto.
      intros (r & [= <-] & Hr). contradiction.
Qed.

(** C5. [Update] issues one [ReplaceOne] and [UpdatePartial] one [UpdateOne]
    with the query and the value as given, and each returns [ErrNotFound]
    exactly when the store answered without error and with a matched count
    of zero, nil exactly when it answered with a matched count other than
    zero, and the store's error when the store failed. *)
Theorem Update_UpdatePartial_contract q val st :
  (exists err,
      fst (Update drv q val st) = Return err
      /\ update_contract
           (fst (mongo.respond drv
                   (mongo.ReplaceOne (tasks (self st)) request_ctx q val) (world st)))
           err
      /\ issued st (snd (Update drv q val st))
         = [mongo.ReplaceOne (tasks (self st)) request_ctx q val])
  /\ (exists err,
         fst (UpdatePartial drv q val st) = Return err
         /\ update_contract
              (fst (mongo.respond drv
                      (mongo.UpdateOne (tasks (self st)) request_ctx q val) (world st)))
              err
         /\ issued st (snd (UpdatePartial drv q val st))
            = [mongo.UpdateOne (tasks (self st)) request_ctx q val]).
Proof.
  unfold tasks, request_ctx, issued. split.
  - go_unfold. answer. eexists. split; [|split].
    2: apply update_contract_holds.
    + destruct r as [e|resp]; [reflexivity|].
      destruct (mongo.MatchedCount resp =? 0); reflexivity.
    + destruct r as [e|resp]; [|destruct (mongo.MatchedCount resp =? 0)];
        cbn; apply drop_app_length.
  - go_unfold. answer. eexists. split; [|split].
    2: apply update_contract_holds.
    + destruct r as [e|resp]; [reflexivity|].
      destruct (mongo.MatchedCount resp =? 0); reflexivity.
    + destruct r as [e|resp]; [|destruct (mongo.MatchedCount resp =? 0)];
        cbn; apply drop_app_length.
Qed.

(** [List] hands [skip] and [limit] to the store as they are, and returns
    the store's cursor when neither the call nor the cursor reports an
    error. *)
Lemma List_run q skip limit st :
  List drv q skip limit st
  = (Return (cursor_result
               (fst (mongo.respond drv
                       (mongo.Find (tasks (self st)) request_ctx q
                          {| options.Skip := Some (int64 skip);
                             options.Limit := Some (int64 limit) |})
                       (world st)))),
     Build_State drv (self st)
       (snd (mongo.respond drv
               (mongo.Find (tasks (self st)) request_ctx q
                  {| options.Skip := Some (int64 skip);
                     options.Limit := Some (int64 limit) |})
               (world st)))
       (trace st ++ [mongo.Find (tasks (self st)) request_ctx q
                       {| options.Skip := Some (int64 skip);
                          options.Limit := Some (int64 limit) |}])).
Proof.
  unfold tasks, request_ctx, cursor_result. go_unfold.
  unfold options.SetLimit, options.SetSkip, options.Find.
  cbn [options.Skip options.Limit].
  answer. destruct r as [e|cur]; [reflexivity|].
  destruct (mongo.cur_err cur); reflexivity.
Qed.

(** C8. For [skip] and [limit] in the range of [int], [List] issues one
    [Find] whose options carry exactly [skip] and [limit], zero included,
    and returns the cursor the store answered with. *)
Theorem List_passes_skip_and_limit q skip limit st :
  is_int skip -> is_int limit ->
  List drv q skip limit st
  = (Return (cursor_result
               (fst (mongo.respond drv
                       (mongo.Find (tasks (self st)) request_ctx q
                          {| options.Skip := Some skip;
                             options.Limit := Some limit |})
                       (world st)))),
     Build_State drv (self st)
       (snd (mongo.respond drv
               (mongo.Find (tasks (self st)) request_ctx q
                  {| options.Skip := Some skip; options.Limit := Some limit |})
               (world st)))
       (trace st ++ [mongo.Find (tasks (self st)) request_ctx q
                       {| options.Skip := Some skip;
                          options.Limit := Some limit |}])).
Proof.
  intros Hs Hl. rewrite List_run, (int64_id skip Hs), (int64_id limit Hl).
  reflexivity.
Qed.

(** *** Index management *)

(** C6. [SetTTL] issues a drop of the index ["TTL"] on the tasks collection
    and does not look at its answer, then one [CreateOne] of the TTL index
    whose expiry is the receiver's [ExpDur], and returns what that creation
    answered; [ExpDur] is the constructor's duration in seconds. *)
Theorem SetTTL_drop_then_create st :
  let col := tasks (self st) in
  let drop := mongo.respond drv (mongo.IndexDropOne col request_ctx "TTL") (world st) in
  let create :=
    mongo.respond drv
      (mongo.IndexCreateOne col request_ctx (ttl_index (ExpDur (self st))))
      (snd drop) in
  SetTTL drv st
  = (Return (IString (fst (fst create)), driver_err (snd (fst create))),
     Build_State drv (self st) (snd create)
       (trace st ++ [mongo.IndexDropOne col request_ctx "TTL";
                     mongo.IndexCreateOne col request_ctx
                       (ttl_index (ExpDur (self st)))]))
  /\ (forall unrepresentable url ttl w tr m,
        fst (fst (NewMongoClient drv unrepresentable url ttl w tr)) = (Some m, None) ->
        ExpDur m = int32_of_float64 unrepresentable (Seconds ttl)).
Proof.
  cbv zeta. split.
  - unfold tasks, request_ctx, ttl_index. go_unfold. answer.
    unfold options.SetExpireAfterSeconds, options.SetName, options.Index.
    cbn [options.Name options.ExpireAfterSeconds options.Sparse options.Unique].
    answer. destruct r0 as [name e]. cbn. rewrite <- app_assoc. reflexivity.
  - intros unrep url ttl w tr m. unfold NewMongoClient.
    destruct (mongo.respond drv (mongo.Connect url) w) as [r w'].
    cbn in r. destruct r as [e|conn]; cbn; [discriminate|].
    intros [= <-]. reflexivity.
Qed.

(** C7. [EnsureIndices] builds the model of each descriptor, in order, and
    submits them all in one [CreateMany]; it returns the error of that one
    call, if any. *)
Theorem EnsureIndices_one_model_per_descriptor (indices : list Index) st :
  let models := map index_of_descriptor indices in
  let reply :=
    mongo.respond drv
      (mongo.IndexCreateMany (tasks (self st)) request_ctx models) (world st) in
  EnsureIndices drv indices st
  = (Return (driver_err (snd (fst reply))),
     Build_State drv (self st) (snd reply)
       (trace st ++ [mongo.IndexCreateMany (tasks (self st)) request_ctx models]))
  /\ length models = length indices.
Proof.
  cbv zeta. split; [|apply length_map].
  unfold tasks, request_ctx. go_unfold.
  rewrite (fold_left_snoc_map model). cbn [app].
  rewrite (map_ext _ _ model_spec).
  answer. destruct r as [names [e|]]; reflexivity.
Qed.

(** *** The collection binding *)

Lemma issued_app st (w : mongo.World drv) (cs : list (mongo.Call Any)) m :
  issued st (Build_State drv m w (trace st ++ cs)) = cs.
Proof. unfold issued. cbn [trace]. apply drop_app_length. Qed.

(** Finish a goal about the calls a method issued, whatever was answered. *)
Ltac issued_head :=
  unfold tasks, issued; go_unfold;
  repeat (answer;
          repeat match goal with
                 | r : _ + _ |- _ => destruct r
                 | r : _ * _ |- _ => destruct r
                 | r : option _ |- _ => destruct r
                 | |- context [match mongo.sr_err ?x with _ => _ end] =>
                     destruct (mongo.sr_err x)
                 | |- context [match mongo.cur_err ?x with _ => _ end] =>
                     destruct (mongo.cur_err x)
                 | |- context [if ?b then _ else _] => destruct b
                 end);
  cbn [fst snd self world trace];
  rewrite <- ?app_assoc, drop_app_length; reflexivity.

(** C9. [getCollection] returns the tasks collection and a nil error on
    every receiver, without a driver call; so each method that guards on it
    goes on to its store call: the first call it issues is the one on the
    collection. *)
Theorem getCollection_always_succeeds st :
  getCollection drv st = (Return (tasks (self st), None), st)
  /\ head (issued st (snd (SetTTL drv st)))
     = Some (mongo.IndexDropOne (tasks (self st)) request_ctx "TTL")
  /\ (forall indices,
        head (issued st (snd (EnsureIndices drv indices st)))
        = Some (mongo.IndexCreateMany (tasks (self st)) request_ctx
                  (map model indices)))
  /\ head (issued st (snd (DropIndices drv st)))
     = Some (mongo.IndexDropAll (tasks (self st)) request_ctx)
  /\ (forall q,
        head (issued st (snd (Get drv q st)))
        = Some (mongo.FindOne (tasks (self st)) request_ctx q))
  /\ (forall t,
        head (issued st (snd (Create drv t st)))
        = Some (mongo.InsertOne (tasks (self st)) request_ctx t))
  /\ (forall q val,
        head (issued st (snd (Update drv q val st)))
        = Some (mongo.ReplaceOne (tasks (self st)) request_ctx q val))
  /\ (forall q val,
        head (issued st (snd (UpdatePartial drv q val st)))
        = Some (mongo.UpdateOne (tasks (self st)) request_ctx q val))
  /\ (forall q skip limit,
        head (issued st (snd (List drv q skip limit st)))
        = Some (mongo.Find (tasks (self st)) request_ctx q
                  {| options.Skip := Some (int64 skip);
                     options.Limit := Some (int64 limit) |}))
  /\ (forall q,
        head (issued st (snd (Aggregate drv q st)))
        = Some (mongo.Aggregate (tasks (self st)) request_ctx q)).
Proof.
  split; [reflexivity|].
  repeat split; intros.
  - issued_head.
  - unfold tasks, issued; go_unfold.
    rewrite (fold_left_snoc_map model). cbn [app].
    answer. destruct r as [names [e|]]; cbn;
      rewrite drop_app_length; reflexivity.
  - issued_head.
  - issued_head.
  - issued_head.
  - issued_head.
  - issued_head.
  - rewrite List_run. cbn [snd]. rewrite issued_app. reflexivity.
  - issued_head.
Qed.

(** *** Frame *)

(** Finish a goal on the receiver a method leaves, whatever was answered. *)
Ltac same_receiver :=
  go_unfold;
  repeat (answer;
          repeat match goal with
                 | r : _ + _ |- _ => destruct r
                 | r : _ * _ |- _ => destruct r
                 | r : option _ |- _ => destruct r
                 | |- context [match mongo.sr_err ?x with _ => _ end] =>
                     destruct (mongo.sr_err x)
                 | |- context [match mongo.cur_err ?x with _ => _ end] =>
                     destruct (mongo.cur_err x)
                 | |- context [if ?b then _ else _] => destruct b
                 end);
  reflexivity.

(** C10. Every method other than [StartTransaction] and [CommitTransaction]
    leaves the receiver, hence its Session Map, URL and TTL, as it found
    it; and the client [NewMongoClient] returns has an empty Session Map. *)
Theorem only_transactions_touch_the_receiver st :
  self (snd (Connect drv st)) = self st
  /\ self (snd (Ping drv st)) = self st
  /\ self (snd (Close drv st)) = self st
  /\ self (snd (SetTTL drv st)) = self st
  /\ (forall indices, self (snd (EnsureIndices drv indices st)) = self st)
  /\ self (snd (DropIndices drv st)) = self st
  /\ (forall q, self (snd (Get drv q st)) = self st)
  /\ (forall t, self (snd (Create drv t st)) = self st)
  /\ (forall q val, self (snd (Update drv q val st)) = self st)
  /\ (forall q val, self (snd (UpdatePartial drv q val st)) = self st)
  /\ (forall q skip limit, self (snd (List drv q skip limit st)) = self st)
  /\ (forall q, self (snd (Aggregate drv q st)) = self st)
  /\ (forall unrepresentable url ttl w tr,
        match fst (fst (fst (NewMongoClient drv unrepresentable url ttl w tr))) with
        | Some m => sess m = ∅ /\ URL m = url
        | None => True
        end).
Proof.
  repeat split; intros; try same_receiver.
  unfold NewMongoClient.
  destruct (mongo.respond drv (mongo.Connect url) w) as [r w'].
  cbn in r. destruct r as [e|conn]; cbn; [exact I|]. split; reflexivity.
Qed.

End contracts.

(** ** The contracts at work on the in-memory driver *)

(** One hour is 3600 seconds; a fraction of a second is dropped. *)
Example ExpDur_one_hour :
  int32_of_float64 Stub.indefinite (Seconds (3600 * Second)) = 3600.
Proof. vm_compute. reflexivity. Qed.

Example ExpDur_drops_fraction :
  int32_of_float64 Stub.indefinite (Seconds (1500 * 1000000)) = 1.
Proof. vm_compute. reflexivity. Qed.

(** [NewMongoClient] on a reachable address gives the client [Stub.client]. *)
Example NewMongoClient_one_hour :
  NewMongoClient Stub.driver Stub.indefinite "mongodb://localhost:27017"
    (3600 * Second) Stub.healthy []
  = ((Some Stub.client, None), Stub.healthy,
     [mongo.Connect "mongodb://localhost:27017"]).
Proof. vm_compute. reflexivity. Qed.

(** On a fresh client, committing ["tx-1"] panics. *)
Lemma CommitTransaction_absent_panics_witness :
  sess (self (Stub.start Stub.healthy)) !! "tx-1" = None
  /\ CommitTransaction Stub.driver "tx-1" (CallerContext 0)
       (Stub.start Stub.healthy)
     = (Panic NilDereference, Stub.start Stub.healthy).
Proof.
  split; [reflexivity|].
  apply (CommitTransaction_absent_panics Stub.driver). reflexivity.
Defined.

(** When transactions cannot be started, ["tx-1"] stays mapped to the
    session that was created for it. *)
Lemma StartTransaction_failed_start_keeps_entry_witness :
  fst (StartTransaction Stub.driver "tx-1" (Stub.start Stub.no_transactions))
  = Return (Nil, Some (DriverError Stub.unacknowledged))
  /\ sess (self (snd (StartTransaction Stub.driver "tx-1"
                        (Stub.start Stub.no_transactions))))
     = <[ "tx-1" := 7%nat ]> ∅
  /\ sess (self (snd (StartTransaction Stub.driver "tx-1"
                        (Stub.start Stub.no_transactions)))) !! "tx-1"
     = Some 7%nat.
Proof.
  exact (StartTransaction_failed_start_keeps_entry Stub.driver "tx-1"
           (Stub.start Stub.no_transactions) 7%nat
           (snd (Stub.respond (mongo.StartSession 1%nat) Stub.no_transactions))
           Stub.unacknowledged
           (snd (Stub.respond (mongo.StartSession 1%nat) Stub.no_transactions))
           eq_refl eq_refl).
Defined.

(** A commit that succeeds removes ["tx-1"]; one that fails keeps it. *)
Lemma CommitTransaction_active_witness :
  sess (self (Stub.active Stub.healthy)) !! "tx-1" = Some 7%nat
  /\ (fst (CommitTransaction Stub.driver "tx-1" (CallerContext 0)
             (Stub.active Stub.healthy)) = Return (Nil, None)
      /\ sess (self (snd (CommitTransaction Stub.driver "tx-1" (CallerContext 0)
                            (Stub.active Stub.healthy)))) !! "tx-1" = None)
  /\ (fst (CommitTransaction Stub.driver "tx-1" (CallerContext 0)
             (Stub.active Stub.failing_commit))
      = Return (Nil, Some (DriverError (mongo.CommandError "commit aborted")))
      /\ sess (self (snd (CommitTransaction Stub.driver "tx-1" (CallerContext 0)
                            (Stub.active Stub.failing_commit)))) !! "tx-1"
         = Some 7%nat).
Proof.
  split; [reflexivity|]. split.
  - destruct (CommitTransaction_active Stub.driver "tx-1" (CallerContext 0)
                (Stub.active Stub.healthy) 7%nat eq_refl) as [Hok _].
    destruct (Hok Stub.healthy Stub.healthy eq_refl eq_refl) as [R Hgone].
    split; [rewrite R; reflexivity | exact Hgone].
  - destruct (CommitTransaction_active Stub.driver "tx-1" (CallerContext 0)
                (Stub.active Stub.failing_commit) 7%nat eq_refl) as [_ Hko].
    destruct (Hko (mongo.CommandError "commit aborted") Stub.failing_commit
                eq_refl) as [R Hkept].
    split; [rewrite R; reflexivity | exact Hkept].
Defined.

(** A filter that matches nothing makes [Get] return the driver's error. *)
Lemma Get_no_documents_is_driver_error_witness :
  mongo.sr_err (fst (Stub.respond
                       (mongo.FindOne (tasks Stub.client) request_ctx "nope")
                       Stub.healthy))
  = Some mongo.ErrNoDocuments
  /\ fst (Get Stub.driver "nope" (Stub.start Stub.healthy))
     = Return (None, Some (DriverError mongo.ErrNoDocuments))
  /\ fst (Get Stub.driver "nope" (Stub.start Stub.healthy))
     <> Return (None, Some ErrNotFound).
Proof.
  split; [reflexivity|].
  exact (Get_no_documents_is_driver_error Stub.driver "nope"
           (Stub.start Stub.healthy) _ Stub.healthy eq_refl eq_refl).
Defined.

(** Of ten documents, skipping two and capping at three yields the third to
    the fifth. *)
Lemma List_passes_skip_and_limit_witness :
  is_int 2 /\ is_int 3
  /\ fst (List Stub.driver "" 2 3 (Stub.start Stub.healthy))
     = Return (Some {| mongo.cur_err := None;
                       mongo.cur_docs := ["d2"; "d3"; "d4"] |}, None).
Proof.
  assert (is_int 2) as H2 by (split; [discriminate | reflexivity]).
  assert (is_int 3) as H3 by (split; [discriminate | reflexivity]).
  split; [exact H2|]. split; [exact H3|].
  rewrite (List_passes_skip_and_limit Stub.driver "" 2 3
             (Stub.start Stub.healthy) H2 H3).
  reflexivity.
Defined.

(** A limit of zero reaches the store as zero, and the store's convention
    then applies: here, no cap. *)
Example List_limit_zero :
  List Stub.driver "" 2 0 (Stub.start Stub.healthy)
  = (Return (Some {| mongo.cur_err := None;
                     mongo.cur_docs :=
                       ["d2"; "d3"; "d4"; "d5"; "d6"; "d7"; "d8"; "d9"] |},
             None),
     Build_State Stub.driver Stub.client Stub.healthy
       [mongo.Find (tasks Stub.client) request_ctx ""
          {| options.Skip := Some 2; options.Limit := Some 0 |}]).
Proof. reflexivity. Qed.

(** The drop fails on this store, the index does not exist, and [SetTTL]
    succeeds all the same, with the expiry the client was built with. *)
Lemma SetTTL_drop_then_create_witness :
  fst (fst (NewMongoClient Stub.driver Stub.indefinite
              "mongodb://localhost:27017" (3600 * Second) Stub.healthy []))
  = (Some Stub.client, None)
  /\ ExpDur Stub.client
     = int32_of_float64 Stub.indefinite (Seconds (3600 * Second))
  /\ fst (Stub.respond (mongo.IndexDropOne (tasks Stub.client) request_ctx "TTL")
            Stub.healthy)
     = Some (mongo.CommandError "index not found")
  /\ SetTTL Stub.driver (Stub.start Stub.healthy)
     = (Return (IString "TTL", None),
        Build_State Stub.driver Stub.client Stub.healthy
          [mongo.IndexDropOne (tasks Stub.client) request_ctx "TTL";
           mongo.IndexCreateOne (tasks Stub.client) request_ctx (ttl_index 3600)]).
Proof.
  destruct (SetTTL_drop_then_create Stub.driver (Stub.start Stub.healthy))
    as [Hrun Hexp].
  split; [vm_compute; reflexivity|].
  split; [apply (Hexp Stub.indefinite "mongodb://localhost:27017"
                   (3600 * Second) Stub.healthy []); vm_compute; reflexivity|].
  split; [reflexivity|].
  rewrite Hrun. reflexivity.
Defined.

(** Two descriptors, one batch: a descending and an ascending key, an empty
    name left unset. *)
Example EnsureIndices_two_descriptors :
  issued (Stub.start Stub.healthy)
    (snd (EnsureIndices Stub.driver
            [ {| Keys := [ {| Key := "task_id"; Desc := false |} ];
                 Name := "by_task"; Unique := true; Sparse := false |};
              {| Keys := [ {| Key := "status"; Desc := true |};
                           {| Key := "created_at"; Desc := false |} ];
                 Name := ""; Unique := false; Sparse := true |} ]
            (Stub.start Stub.healthy)))
  = [ mongo.IndexCreateMany (tasks Stub.client) request_ctx
        [ {| mongo.Keys := [ {| bson.Key := "task_id"; bson.Value := 1 |} ];
             mongo.Options :=
               {| options.Name := Some "by_task";
                  options.ExpireAfterSeconds := None;
                  options.Sparse := Some false;
                  options.Unique := Some true |} |};
          {| mongo.Keys := [ {| bson.Key := "status"; bson.Value := -1 |};
                             {| bson.Key := "created_at"; bson.Value := 1 |} ];
             mongo.Options :=
               {| options.Name := None;
                  options.ExpireAfterSeconds := None;
                  options.Sparse := Some true;
                  options.Unique := Some false |} |} ] ].
Proof. reflexivity. Qed.

(** Replacing through a filter that matches nothing is [ErrNotFound]; one
    that matches replaces the first match. *)
Example Update_on_ten_documents :
  fst (Update Stub.driver "nope" "new" (Stub.start Stub.healthy))
  = Return (Some ErrNotFound)
  /\ fst (Update Stub.driver "d1" "new" (Stub.start Stub.healthy)) = Return None
  /\ Stub.documents (world (snd (Update Stub.driver "d1" "new"
                                   (Stub.start Stub.healthy))))
     = ["d0"; "new"; "d2"; "d3"; "d4"; "d5"; "d6"; "d7"; "d8"; "d9"].
Proof. repeat split. Qed.

(** Start then commit: ["tx-1"] is tracked in between and gone after. *)
Example start_then_commit :
  let st1 := snd (StartTransaction Stub.driver "tx-1" (Stub.start Stub.healthy)) in
  let st2 := snd (CommitTransaction Stub.driver "tx-1" (CallerContext 0) st1) in
  sess (self st1) !! "tx-1" = Some 7%nat
  /\ sess (self st2) = ∅
  /\ trace st2
     = [mongo.StartSession 1%nat; mongo.SessionStartTransaction 7%nat;
        mongo.SessionCommitTransaction 7%nat (CallerContext 0);
        mongo.SessionEndSession 7%nat (CallerContext 0)].
Proof. cbv zeta. repeat split; vm_compute; reflexivity. Qed.

(** ** Further properties of the session tracker *)

Section sessions.

Context {Any : Type} (drv : mongo.Driver Any).

Implicit Types (st : State drv) (id : string) (ctx : GoContext).

(** What [StartTransaction] leaves once the driver has created a session:
    the entry is set before the transaction is started, whatever the
    answer to the start is. *)
Lemma StartTransaction_session_created id st s w1 :
  mongo.respond drv (mongo.StartSession (mcl (self st))) (world st) = (inr s, w1) ->
  StartTransaction drv id st
  = (Return (Nil, driver_err
                    (fst (mongo.respond drv (mongo.SessionStartTransaction s) w1))),
     Build_State drv (with_sess (insert id s) (self st))
       (snd (mongo.respond drv (mongo.SessionStartTransaction s) w1))
       (trace st ++ [mongo.StartSession (mcl (self st));
                     mongo.SessionStartTransaction s])).
Proof.
  intros E1. go_unfold. rewrite E1. cbn.
  unfold with_sess at 1. cbn [sess]. rewrite lookup_insert_eq. cbn.
  destruct (mongo.respond drv (mongo.SessionStartTransaction s) w1) as [e w2].
  cbn. rewrite <- app_assoc. reflexivity.
Qed.

(** What [CommitTransaction] does on a tracked identifier. *)
Lemma CommitTransaction_tracked id ctx st s :
  sess (self st) !! id = Some s ->
  CommitTransaction drv id ctx st
  = match mongo.respond drv (mongo.SessionCommitTransaction s ctx) (world st) with
    | (Some e, w1) =>
        (Return (Nil, Some (DriverError e)),
         Build_State drv (self st) w1
           (trace st ++ [mongo.SessionCommitTransaction s ctx]))
    | (None, w1) =>
        (Return (Nil, None),
         Build_State drv (with_sess (delete id) (self st))
           (snd (mongo.respond drv (mongo.SessionEndSession s ctx) w1))
           (trace st ++ [mongo.SessionCommitTransaction s ctx;
                         mongo.SessionEndSession s ctx]))
    end.
Proof.
  intros H. go_unfold. rewrite H. cbn.
  destruct (mongo.respond drv (mongo.SessionCommitTransaction s ctx) (world st))
    as [[e|] w1]; cbn; [reflexivity|].
  rewrite H. cbn.
  destruct (mongo.respond drv (mongo.SessionEndSession s ctx) w1) as [u w2].
  cbn. rewrite <- app_assoc. reflexivity.
Qed.


(** X2. [CommitTransaction] panics exactly on the identifiers the Session Map
    does not hold, whatever the driver would answer. *)
Theorem CommitTransaction_panics_iff_untracked id ctx st :
  (exists p, fst (CommitTransaction drv id ctx st) = Panic p)
  <-> sess (self st) !! id = None.
Proof.
  split.
  - intros [p Hp]. destruct (sess (self st) !! id) as [s|] eqn:H; [|reflexivity].
    rewrite (CommitTransaction_tracked id ctx st s H) in Hp.
    destruct (mongo.respond drv (mongo.SessionCommitTransaction s ctx) (world st))
      as [[e|] w1]; discriminate.
  - intros H. exists NilDereference. go_unfold. rewrite H. reflexivity.
Qed.

(** X3. Neither method touches the entry of another identifier, nor the URL, the
    TTL or the connection of the client. *)
Theorem transactions_keep_other_entries id id' ctx st :
  id <> id' ->
  (sess (self (snd (StartTransaction drv id st))) !! id' = sess (self st) !! id'
   /\ sess (self (snd (CommitTransaction drv id ctx st))) !! id'
      = sess (self st) !! id')
  /\ (URL (self (snd (StartTransaction drv id st))) = URL (self st)
      /\ ExpDur (self (snd (StartTransaction drv id st))) = ExpDur (self st)
      /\ mcl (self (snd (StartTransaction drv id st))) = mcl (self st))
  /\ (URL (self (snd (CommitTransaction drv id ctx st))) = URL (self st)
      /\ ExpDur (self (snd (CommitTransaction drv id ctx st))) = ExpDur (self st)
      /\ mcl (self (snd (CommitTransaction drv id ctx st))) = mcl (self st)).
Proof.
  intros Hne.
  assert (exists f, self (snd (StartTransaction drv id st)) = with_sess f (self st)
                    /\ f (sess (self st)) !! id' = sess (self st) !! id') as (f & Hf & Hf').
  { destruct (mongo.respond drv (mongo.StartSession (mcl (self st))) (world st))
      as [r w1] eqn:E1.
    cbn in r. destruct r as [e|s].
    - rewrite (StartTransaction_no_session drv id st e w1 E1).
      exists (fun m => m). split; [|reflexivity]. cbn. now destruct (self st).
    - rewrite (StartTransaction_session_created id st s w1 E1).
      exists (insert id s). split; [reflexivity|]. now apply lookup_insert_ne. }
  assert (exists g, self (snd (CommitTransaction drv id ctx st)) = with_sess g (self st)
                    /\ g (sess (self st)) !! id' = sess (self st) !! id') as (g & Hg & Hg').
  { destruct (sess (self st) !! id) as [s|] eqn:H.
    - rewrite (CommitTransaction_tracked id ctx st s H).
      destruct (mongo.respond drv (mongo.SessionCommitTransaction s ctx) (world st))
        as [[e|] w1].
      + exists (fun m => m). split; [|reflexivity]. cbn. now destruct (self st).
      + exists (delete id). split; [reflexivity|]. now apply lookup_delete_ne.
    - exists (fun m => m). split; [|reflexivity].
      go_unfold. rewrite H. cbn. now destruct (self st). }
  rewrite Hf, Hg. cbn. repeat split; assumption.
Qed.

(** A start followed by a commit, both granted by the driver: four calls,
    all on the new session, and the entry of [id] removed. *)
Lemma start_then_commit_run id ctx st s w1 w2 w3 :
  mongo.respond drv (mongo.StartSession (mcl (self st))) (world st) = (inr s, w1) ->
  mongo.respond drv (mongo.SessionStartTransaction s) w1 = (None, w2) ->
  mongo.respond drv (mongo.SessionCommitTransaction s ctx) w2 = (None, w3) ->
  CommitTransaction drv id ctx (snd (StartTransaction drv id st))
  = (Return (Nil, None),
     Build_State drv (with_sess (delete id) (self st))
       (snd (mongo.respond drv (mongo.SessionEndSession s ctx) w3))
       (trace st ++ [mongo.StartSession (mcl (self st));
                     mongo.SessionStartTransaction s;
                     mongo.SessionCommitTransaction s ctx;
                     mongo.SessionEndSession s ctx])).
Proof.
  intros E1 E2 E3.
  rewrite (StartTransaction_session_created id st s w1 E1), E2. cbn [fst snd].
  rewrite (CommitTransaction_tracked id ctx _ s)
    by (cbn; apply lookup_insert_eq).
  cbn [world self trace]. rewrite E3.
  unfold with_sess. cbn [URL ExpDur mcl sess].
  rewrite delete_insert_eq, <- app_assoc. reflexivity.
Qed.

(** X4. Round trip.  On an identifier that is not tracked, a granted start
    followed by a granted commit leaves the Session Map exactly as it was,
    and every session call in between is on the session the driver
    created. *)
Theorem start_then_commit_restores_map id ctx st s w1 w2 w3 :
  sess (self st) !! id = None ->
  mongo.respond drv (mongo.StartSession (mcl (self st))) (world st) = (inr s, w1) ->
  mongo.respond drv (mongo.SessionStartTransaction s) w1 = (None, w2) ->
  mongo.respond drv (mongo.SessionCommitTransaction s ctx) w2 = (None, w3) ->
  fst (CommitTransaction drv id ctx (snd (StartTransaction drv id st)))
  = Return (Nil, None)
  /\ self (snd (CommitTransaction drv id ctx (snd (StartTransaction drv id st))))
     = self st
  /\ issued st (snd (CommitTransaction drv id ctx (snd (StartTransaction drv id st))))
     = [mongo.StartSession (mcl (self st));
        mongo.SessionStartTransaction s;
        mongo.SessionCommitTransaction s ctx;
        mongo.SessionEndSession s ctx].
Proof.
  intros H E1 E2 E3.
  rewrite (start_then_commit_run id ctx st s w1 w2 w3 E1 E2 E3).
  cbn [fst snd self]. split; [reflexivity|]. split.
  - unfold with_sess. rewrite (delete_id _ _ H). now destruct (self st).
  - unfold issued. cbn [trace]. apply drop_app_length.
Qed.

(** X5. Overwrite.  When [id] is already mapped to a session [old], a granted
    start maps it to the new session without any call on [old]; the commit
    that follows is on the new session, and removes the entry: [old] is out
    of the Session Map and was never committed or ended. *)
Theorem restart_abandons_the_old_session id ctx st old s w1 w2 w3 :
  sess (self st) !! id = Some old ->
  old <> s ->
  mongo.respond drv (mongo.StartSession (mcl (self st))) (world st) = (inr s, w1) ->
  mongo.respond drv (mongo.SessionStartTransaction s) w1 = (None, w2) ->
  mongo.respond drv (mongo.SessionCommitTransaction s ctx) w2 = (None, w3) ->
  sess (self (snd (StartTransaction drv id st))) !! id = Some s
  /\ sess (self (snd (CommitTransaction drv id ctx
                        (snd (StartTransaction drv id st))))) !! id = None
  /\ forallb (fun c => negb (on_session old c))
       (issued st (snd (CommitTransaction drv id ctx
                          (snd (StartTransaction drv id st))))) = true.
Proof.
  intros H Hne E1 E2 E3. split; [|split].
  - rewrite (StartTransaction_session_created id st s w1 E1). cbn.
    apply lookup_insert_eq.
  - rewrite (start_then_commit_run id ctx st s w1 w2 w3 E1 E2 E3). cbn.
    apply lookup_delete_eq.
  - rewrite (start_then_commit_run id ctx st s w1 w2 w3 E1 E2 E3).
    unfold issued. cbn [snd trace]. rewrite drop_app_length.
    cbn. apply Nat.eqb_neq in Hne. rewrite Hne. reflexivity.
Qed.

(** X6. A caller that ignores the error of a [StartTransaction] whose session
    could not be created, and commits: the commit panics. *)
Theorem commit_after_failed_session_panics id ctx st e w1 :
  sess (self st) !! id = None ->
  mongo.respond drv (mongo.StartSession (mcl (self st))) (world st) = (inl e, w1) ->
  fst (StartTransaction drv id st) = Return (Nil, Some (DriverError e))
  /\ fst (CommitTransaction drv id ctx (snd (StartTransaction drv id st)))
     = Panic NilDereference.
Proof.
  intros H E1. rewrite (StartTransaction_no_session drv id st e w1 E1).
  cbn [fst snd]. split; [reflexivity|].
  go_unfold. rewrite H. reflexivity.
Qed.

(** X7. A caller that ignores the error of a [StartTransaction] whose
    transaction could not be started, and commits: the commit goes to the
    driver, on the session that has no transaction, and its outcome is the
    driver's. *)
Theorem commit_after_failed_start_reaches_the_driver id ctx st s w1 e w2 :
  mongo.respond drv (mongo.StartSession (mcl (self st))) (world st) = (inr s, w1) ->
  mongo.respond drv (mongo.SessionStartTransaction s) w1 = (Some e, w2) ->
  fst (StartTransaction drv id st) = Return (Nil, Some (DriverError e))
  /\ head (issued (snd (StartTransaction drv id st))
             (snd (CommitTransaction drv id ctx (snd (StartTransaction drv id st)))))
     = Some (mongo.SessionCommitTransaction s ctx)
  /\ fst (CommitTransaction drv id ctx (snd (StartTransaction drv id st)))
     = Return (Nil, driver_err
                      (fst (mongo.respond drv
                              (mongo.SessionCommitTransaction s ctx) w2))).
Proof.
  intros E1 E2.
  rewrite (StartTransaction_session_created id st s w1 E1), E2. cbn [fst snd].
  split; [reflexivity|].
  rewrite (CommitTransaction_tracked id ctx _ s)
    by (cbn; apply lookup_insert_eq).
  cbn [world self trace]. unfold issued. cbn [trace].
  destruct (mongo.respond drv (mongo.SessionCommitTransaction s ctx) w2)
    as [[e'|] w3]; cbn [fst snd trace];
    rewrite drop_app_length; split; reflexivity.
Qed.

End sessions.

(** ** Further properties of the index and CRUD methods *)

(** Follow a method down every answer of the driver. *)
Ltac drive :=
  go_unfold;
  repeat (answer;
          repeat match goal with
                 | r : _ + _ |- _ => destruct r
                 | r : _ * _ |- _ => destruct r
                 | r : option _ |- _ => destruct r
                 | |- context [match mongo.sr_err ?x with _ => _ end] =>
                     destruct (mongo.sr_err x) eqn:?
                 | |- context [match mongo.cur_err ?x with _ => _ end] =>
                     destruct (mongo.cur_err x) eqn:?
                 | |- context [if ?b then _ else _] => destruct b eqn:?
                 end);
  cbn [fst snd self world trace].

Section methods.

Context {Any : Type} (drv : mongo.Driver Any).

Implicit Types (st : State drv) (id : string) (ctx : GoContext).

(** X8. A result and an error never come together, and never both missing:
    [Get], [List] and [Aggregate] return either a result whose own [Err()]
    is nil, with a nil error, or no result with an error; [NewMongoClient]
    returns either a client or an error. *)
Theorem result_or_error q skip limit st :
  match fst (Get drv q st) with
  | Return (Some r, None) => mongo.sr_err r = None
  | Return (None, Some _) => True
  | _ => False
  end
  /\ match fst (List drv q skip limit st) with
     | Return (Some c, None) => mongo.cur_err c = None
     | Return (None, Some _) => True
     | _ => False
     end
  /\ match fst (Aggregate drv q st) with
     | Return (Some c, None) => mongo.cur_err c = None
     | Return (None, Some _) => True
     | _ => False
     end
  /\ (forall unrepresentable url ttl w tr,
        match fst (fst (NewMongoClient drv unrepresentable url ttl w tr)) with
        | (Some _, None) | (None, Some _) => True
        | _ => False
        end).
Proof.
  split; [|split; [|split]].
  - drive; auto.
  - drive; auto.
  - drive; auto.
  - intros. unfold NewMongoClient.
    destruct (mongo.respond drv (mongo.Connect url) w) as [r w'].
    cbn in r. destruct r; exact I.
Qed.

(** X9. [ErrNotFound] comes from [Update] and [UpdatePartial] alone: no other
    method, and not the constructor, ever returns it. *)
Theorem ErrNotFound_only_from_updates st :
  (forall id v, fst (StartTransaction drv id st) <> Return (v, Some ErrNotFound))
  /\ (forall id ctx v,
        fst (CommitTransaction drv id ctx st) <> Return (v, Some ErrNotFound))
  /\ fst (Ping drv st) <> Return (Some ErrNotFound)
  /\ (forall v, fst (SetTTL drv st) <> Return (v, Some ErrNotFound))
  /\ (forall indices,
        fst (EnsureIndices drv indices st) <> Return (Some ErrNotFound))
  /\ fst (DropIndices drv st) <> Return (Some ErrNotFound)
  /\ fst (Close drv st) <> Return (Some ErrNotFound)
  /\ fst (Connect drv st) <> Return (Some ErrNotFound)
  /\ (forall q v, fst (Get drv q st) <> Return (v, Some ErrNotFound))
  /\ (forall t, fst (Create drv t st) <> Return (Some ErrNotFound))
  /\ (forall q skip limit v,
        fst (List drv q skip limit st) <> Return (v, Some ErrNotFound))
  /\ (forall q v, fst (Aggregate drv q st) <> Return (v, Some ErrNotFound))
  /\ (forall unrepresentable url ttl w tr v,
        fst (fst (NewMongoClient drv unrepresentable url ttl w tr))
        <> (v, Some ErrNotFound)).
Proof.
  repeat split; intros.
  - destruct (mongo.respond drv (mongo.StartSession (mcl (self st))) (world st))
      as [r w1] eqn:E1.
    cbn in r. destruct r as [e|s].
    + rewrite (StartTransaction_no_session drv id st e w1 E1). discriminate.
    + rewrite (StartTransaction_session_created drv id st s w1 E1). cbn.
      destruct (mongo.respond drv (mongo.SessionStartTransaction s) w1) as [[e|] w2];
        discriminate.
  - destruct (sess (self st) !! id) as [s|] eqn:H.
    + rewrite (CommitTransaction_tracked drv id ctx st s H).
      destruct (mongo.respond drv (mongo.SessionCommitTransaction s ctx) (world st))
        as [[e|] w1]; discriminate.
    + go_unfold. rewrite H. discriminate.
  - drive; discriminate.
  - drive; discriminate.
  - drive; discriminate.
  - drive; discriminate.
  - drive; discriminate.
  - drive; discriminate.
  - drive; discriminate.
  - drive; discriminate.
  - drive; discriminate.
  - drive; discriminate.
  - unfold NewMongoClient.
    destruct (mongo.respond drv (mongo.Connect url) w) as [r w'].
    cbn in r. destruct r; discriminate.
Qed.

(** X10. No retries: each method makes a fixed number of driver calls, whatever
    the driver answers.  One for the connection, index and CRUD methods, two
    for [SetTTL], one or two for [StartTransaction], at most two for
    [CommitTransaction]. *)
Theorem driver_calls_per_method st :
  length (issued st (snd (Ping drv st))) = 1%nat
  /\ length (issued st (snd (Close drv st))) = 1%nat
  /\ length (issued st (snd (Connect drv st))) = 1%nat
  /\ length (issued st (snd (SetTTL drv st))) = 2%nat
  /\ (forall indices,
        length (issued st (snd (EnsureIndices drv indices st))) = 1%nat)
  /\ length (issued st (snd (DropIndices drv st))) = 1%nat
  /\ (forall q, length (issued st (snd (Get drv q st))) = 1%nat)
  /\ (forall t, length (issued st (snd (Create drv t st))) = 1%nat)
  /\ (forall q val, length (issued st (snd (Update drv q val st))) = 1%nat)
  /\ (forall q val, length (issued st (snd (UpdatePartial drv q val st))) = 1%nat)
  /\ (forall q skip limit,
        length (issued st (snd (List drv q skip limit st))) = 1%nat)
  /\ (forall q, length (issued st (snd (Aggregate drv q st))) = 1%nat)
  /\ (forall id,
        (1 <= length (issued st (snd (StartTransaction drv id st))) <= 2)%nat)
  /\ (forall id ctx,
        (length (issued st (snd (CommitTransaction drv id ctx st))) <= 2)%nat).
Proof.
  unfold issued.
  repeat split; intros;
    try (drive; rewrite <- ?app_assoc, drop_app_length; reflexivity).
  - destruct (mongo.respond drv (mongo.StartSession (mcl (self st))) (world st))
      as [r w1] eqn:E1.
    cbn in r. destruct r as [e|s].
    + rewrite (StartTransaction_no_session drv id st e w1 E1). cbn [snd trace].
      rewrite drop_app_length. cbn. lia.
    + rewrite (StartTransaction_session_created drv id st s w1 E1). cbn [snd trace].
      rewrite drop_app_length. cbn. lia.
  - destruct (mongo.respond drv (mongo.StartSession (mcl (self st))) (world st))
      as [r w1] eqn:E1.
    cbn in r. destruct r as [e|s].
    + rewrite (StartTransaction_no_session drv id st e w1 E1). cbn [snd trace].
      rewrite drop_app_length. cbn. lia.
    + rewrite (StartTransaction_session_created drv id st s w1 E1). cbn [snd trace].
      rewrite drop_app_length. cbn. lia.
  - destruct (sess (self st) !! id) as [s|] eqn:H.
    + rewrite (CommitTransaction_tracked drv id ctx st s H).
      destruct (mongo.respond drv (mongo.SessionCommitTransaction s ctx) (world st))
        as [[e|] w1]; cbn [snd trace]; rewrite drop_app_length; cbn; lia.
    + go_unfold. rewrite H. cbn [snd]. rewrite drop_all. cbn. lia.
Qed.

End methods.

(** ** Descriptors and their models *)

Lemma index_keys_inj (ks ks' : list IndexKey) :
  map (fun k => {| bson.Key := Key k;
                   bson.Value := if Desc k then -1 else 1 |}) ks
  = map (fun k => {| bson.Key := Key k;
                     bson.Value := if Desc k then -1 else 1 |}) ks' ->
  ks = ks'.
Proof.
  revert ks'. induction ks as [|k ks IH]; intros [|k' ks']; cbn;
    try discriminate; [reflexivity|].
  intros [= Hk Hd Hrest]. f_equal; [|now apply IH].
  destruct k as [n d], k' as [n' d']; cbn in *. subst n'.
  destruct d, d'; try discriminate; reflexivity.
Qed.

(** X11. [model] loses nothing: two descriptors with the same index model are
    the same descriptor. *)
Theorem model_injective (i j : Index) : model i = model j -> i = j.
Proof.
  rewrite !model_spec. unfold index_of_descriptor.
  intros [= Hk Hn Hs Hu]. apply index_keys_inj in Hk.
  destruct i as [ki ni ui si], j as [kj nj uj sj]; cbn in *. subst.
  f_equal.
  destruct (decide (ni = "")) as [->|Hi], (decide (nj = "")) as [->|Hj];
    congruence.
Qed.

(** ** Programs *)

Section programs.

Context {Any : Type} (drv : mongo.Driver Any).

Implicit Types (st : State drv) (op : Op Any) (ops : list (Op Any)).

Lemma discard_state {A : Type} (c : Go drv A) st :
  snd (discard c st) = snd (c st).
Proof. unfold discard. destruct (c st) as [[a|p] st']; reflexivity. Qed.


(** What a call does to the receiver: nothing, or, for the two transaction
    methods, one insertion or one deletion under the identifier given. *)
Lemma exec_receiver op st :
  self (snd (exec drv op st)) = self st
  \/ (exists id s, op = OpStartTransaction id
                   /\ self (snd (exec drv op st))
                      = with_sess (insert id s) (self st))
  \/ (exists id ctx, op = OpCommitTransaction id ctx
                     /\ self (snd (exec drv op st))
                        = with_sess (delete id) (self st)).
Proof.
  destruct op; cbn [exec]; rewrite discard_state;
    try (left; drive; reflexivity).
  - destruct (mongo.respond drv (mongo.StartSession (mcl (self st))) (world st))
      as [r w1] eqn:E1.
    cbn in r. destruct r as [e|s].
    + left. rewrite (StartTransaction_no_session drv id st e w1 E1). reflexivity.
    + right. left. exists id, s. split; [reflexivity|].
      rewrite (StartTransaction_session_created drv id st s w1 E1). reflexivity.
  - destruct (sess (self st) !! id) as [s|] eqn:H.
    + rewrite (CommitTransaction_tracked drv id ctx st s H).
      destruct (mongo.respond drv (mongo.SessionCommitTransaction s ctx) (world st))
        as [[e|] w1].
      * left. reflexivity.
      * right. right. exists id, ctx. split; reflexivity.
    + left. go_unfold. rewrite H. reflexivity.
Qed.



Lemma run_cons op ops st :
  snd (run drv (op :: ops) st)
  = match fst (exec drv op st) with
    | Return _ => snd (run drv ops (snd (exec drv op st)))
    | Panic _ => snd (exec drv op st)
    end.
Proof.
  cbn [run]. destruct (exec drv op st) as [[u|p] st']; reflexivity.
Qed.

(** X12. The configuration is fixed at construction: after any program, the
    URL, the TTL and the connection of the client are those it started
    with. *)
Theorem run_keeps_configuration ops st :
  URL (self (snd (run drv ops st))) = URL (self st)
  /\ ExpDur (self (snd (run drv ops st))) = ExpDur (self st)
  /\ mcl (self (snd (run drv ops st))) = mcl (self st).
Proof.
  revert st. induction ops as [|op ops IH]; intros st; [now cbn|].
  rewrite run_cons.
  assert (URL (self (snd (exec drv op st))) = URL (self st)
          /\ ExpDur (self (snd (exec drv op st))) = ExpDur (self st)
          /\ mcl (self (snd (exec drv op st))) = mcl (self st)) as (Hu & He & Hm).
  { destruct (exec_receiver op st) as [H|[(id & s & _ & H)|(id & ctx & _ & H)]];
      rewrite H; now cbn. }
  destruct (fst (exec drv op st)); [|now rewrite Hu, He, Hm].
  destruct (IH (snd (exec drv op st))) as (Hu' & He' & Hm').
  now rewrite Hu', He', Hm', Hu, He, Hm.
Qed.

(** X13. Only [StartTransaction] brings an identifier into the Session Map:
    after any program, every tracked identifier was tracked before or is one
    the program started a transaction for. *)
Theorem run_tracks_only_started ops st :
  dom (sess (self (snd (run drv ops st))))
  ⊆ dom (sess (self st)) ∪ started ops.
Proof.
  revert st. induction ops as [|op ops IH]; intros st;
    [apply union_subseteq_l|].
  rewrite run_cons.
  assert (dom (sess (self (snd (exec drv op st))))
          ⊆ dom (sess (self st)) ∪ started [op]) as Hstep.
  { destruct (exec_receiver op st) as [E|[(id & s & -> & E)|(id & ctx & -> & E)]];
      rewrite E; cbn [with_sess sess started]; clear E.
    - apply union_subseteq_l.
    - rewrite dom_insert_L. apply elem_of_subseteq. intros x.
      rewrite !elem_of_union. tauto.
    - rewrite dom_delete_L. apply elem_of_subseteq. intros x.
      rewrite elem_of_difference, elem_of_union. tauto. }
  assert (started (op :: ops) = started [op] ∪ started ops) as ->.
  { destruct op; cbn [started]; apply set_eq; intros x;
      rewrite ?elem_of_union, ?elem_of_empty; tauto. }
  revert Hstep. rewrite !elem_of_subseteq. intros Hstep.
  destruct (fst (exec drv op st)).
  - specialize (IH (snd (exec drv op st))). rewrite elem_of_subseteq in IH.
    intros x Hx. apply IH in Hx. revert Hx. rewrite !elem_of_union.
    intros [Hx|Hx]; [|tauto]. apply Hstep in Hx. revert Hx.
    rewrite elem_of_union. tauto.
  - intros x Hx. apply Hstep in Hx. revert Hx. rewrite !elem_of_union. tauto.
Qed.


End programs.

(** ** The TTL in seconds *)

(** A positive of [d] binary digits is at least [2^(d-1)]. *)
Lemma digits2_pos_lower (p : positive) :
  2 ^ (Z.pos (digits2_pos p) - 1) <= Z.pos p.
Proof.
  induction p as [p IH|p IH|]; cbn [digits2_pos].
  - rewrite Pos2Z.inj_succ.
    replace (Z.succ (Z.pos (digits2_pos p)) - 1)
      with (Z.succ (Z.pos (digits2_pos p) - 1)) by lia.
    rewrite Z.pow_succ_r by lia. lia.
  - rewrite Pos2Z.inj_succ.
    replace (Z.succ (Z.pos (digits2_pos p)) - 1)
      with (Z.succ (Z.pos (digits2_pos p) - 1)) by lia.
    rewrite Z.pow_succ_r by lia. lia.
  - cbn. lia.
Qed.

Lemma digits2_pos_small (p : positive) :
  Z.pos p < 2 ^ 52 -> Z.pos (digits2_pos p) <= 52.
Proof.
  intros H. pose proof (digits2_pos_lower p) as L.
  destruct (Z_le_gt_dec (Z.pos (digits2_pos p)) 52) as [|G]; [assumption|].
  exfalso.
  assert (2 ^ 52 <= 2 ^ (Z.pos (digits2_pos p) - 1))
    by (apply Z.pow_le_mono_r; lia).
  lia.
Qed.

(** Shifting left by [q] adds [q] digits and multiplies by [2^q]. *)
Lemma digits2_pos_shift (p q : positive) :
  digits2_pos (Pos.iter xO p q) = (digits2_pos p + q)%positive.
Proof.
  induction q as [|q IH] using Pos.peano_ind.
  - cbn. lia.
  - rewrite Pos.iter_succ. cbn [digits2_pos]. rewrite IH. lia.
Qed.

Lemma shift_value (p q : positive) :
  Z.pos (Pos.iter xO p q) = Z.pos p * 2 ^ Z.pos q.
Proof.
  change (Pos.iter xO p q) with (shift_pos q p).
  rewrite shift_pos_correct, Zpower_pos_nat, Zpower_nat_Z, positive_nat_Z. lia.
Qed.

Lemma shifted_back (p q : positive) :
  Z.pos (Pos.iter xO p q) / 2 ^ Z.pos q = Z.pos p.
Proof. rewrite shift_value. apply Z.div_mul. apply Z.pow_nonzero; lia. Qed.

(** Rounding an integer of fewer than 53 digits to binary64 only aligns it:
    nothing is lost. *)
Lemma binary_round_int (s : bool) (p q : positive) :
  Z.pos (digits2_pos p) + Z.pos q = 53 ->
  binary_round prec emax s p 0 = S754_finite s (Pos.iter xO p q) (Z.neg q).
Proof.
  intros Hd.
  assert (fexp prec emax (Z.pos (digits2_pos p) + 0) = Z.neg q) as H1.
  { unfold fexp, SpecFloat.emin, prec, emax. lia. }
  assert (fexp prec emax (Zdigits2 (Z.pos (Pos.iter xO p q)) + Z.neg q)
          = Z.neg q) as H2.
  { cbn [Zdigits2]. rewrite digits2_pos_shift.
    unfold fexp, SpecFloat.emin, prec, emax. lia. }
  unfold binary_round. rewrite H1. unfold shl_align.
  change (Z.neg q - 0) with (Z.neg q). cbv beta iota.
  unfold binary_round_aux, shr_fexp. rewrite H2, Z.sub_diag.
  cbn [shr_record_of_loc shr shr_m loc_of_shr_record round_nearest_even].
  rewrite H2, Z.sub_diag. cbn [shr shr_m].
  replace (Z.neg q <=? emax - prec) with true; [reflexivity|].
  symmetry. apply Z.leb_le. unfold emax, prec. lia.
Qed.

Lemma to_Z_of_Z (n : Z) : 0 <= n < 2 ^ 63 -> Uint63.to_Z (Uint63.of_Z n) = n.
Proof. intros H. rewrite Uint63.of_Z_spec. apply Z.mod_small. exact H. Qed.

(** The binary64 value that holds the integer [n] exactly. *)
Definition exact_float (n : Z) : spec_float :=
  match n with
  | Z0 => S754_zero false
  | Z.pos p =>
      let q := Z.to_pos (53 - Z.pos (digits2_pos p)) in
      S754_finite false (Pos.iter xO p q) (Z.neg q)
  | Z.neg p =>
      let q := Z.to_pos (53 - Z.pos (digits2_pos p)) in
      S754_finite true (Pos.iter xO p q) (Z.neg q)
  end.

Lemma Prim2SF_float64_of_int (n : Z) :
  - 2 ^ 52 < n < 2 ^ 52 -> Prim2SF (float64_of_int n) = exact_float n.
Proof.
  intros H. unfold float64_of_int. destruct n as [|p|p].
  - reflexivity.
  - change (Z.pos p <? 0) with false. cbv iota.
    rewrite FloatAxioms.of_uint63_spec, (to_Z_of_Z (Z.pos p)) by lia.
    cbn [binary_normalize exact_float].
    pose proof (digits2_pos_small p ltac:(lia)) as D.
    apply binary_round_int. rewrite Z2Pos.id by lia. lia.
  - change (Z.neg p <? 0) with true. change (- Z.neg p) with (Z.pos p).
    cbv iota.
    rewrite FloatAxioms.opp_spec, FloatAxioms.of_uint63_spec,
      (to_Z_of_Z (Z.pos p)) by lia.
    cbn [binary_normalize exact_float].
    pose proof (digits2_pos_small p ltac:(lia)) as D.
    rewrite (binary_round_int false p (Z.to_pos (53 - Z.pos (digits2_pos p)))).
    + reflexivity.
    + rewrite Z2Pos.id by lia. lia.
Qed.

Lemma truncate_exact (n : Z) (f : float) :
  Prim2SF f = exact_float n -> truncate f = Some n.
Proof.
  unfold truncate. intros ->. destruct n as [|p|p]; cbn [exact_float].
  - reflexivity.
  - change (0 <=? Z.neg ?q) with false. cbv iota zeta.
    change (- Z.neg ?q) with (Z.pos q).
    now rewrite shifted_back.
  - change (0 <=? Z.neg ?q) with false. cbv iota zeta.
    change (- Z.neg ?q) with (Z.pos q).
    now rewrite shifted_back.
Qed.

Lemma no_fraction : PrimFloat.div (float64_of_int 0) 1e9%float = 0%float.
Proof. reflexivity. Qed.

Lemma Prim2SF_zero : Prim2SF 0%float = S754_zero false.
Proof. reflexivity. Qed.

(** [Seconds] of a whole number of seconds is that number. *)
Lemma Seconds_whole (k : Z) :
  - 2 ^ 52 < k < 2 ^ 52 -> truncate (Seconds (k * Second)) = Some k.
Proof.
  intros H. apply truncate_exact. unfold Seconds.
  rewrite Z.quot_mul, Z.rem_mul by discriminate. cbv zeta.
  rewrite no_fraction, FloatAxioms.add_spec, Prim2SF_zero,
    (Prim2SF_float64_of_int k H).
  destruct k; reflexivity.
Qed.

Lemma int32_whole_seconds (unrepresentable : float -> Z) (k : Z) :
  - 2 ^ 31 <= k < 2 ^ 31 ->
  int32_of_float64 unrepresentable (Seconds (k * Second)) = k.
Proof.
  intros H. unfold int32_of_float64. rewrite Seconds_whole by lia.
  unfold is_int32.
  replace (- 2 ^ 31 <=? k) with true by (symmetry; apply Z.leb_le; lia).
  replace (k <? 2 ^ 31) with true by (symmetry; apply Z.ltb_lt; lia).
  reflexivity.
Qed.

(** The float conversion is not a floor: one nanosecond short of a second,
    past [2^30] seconds, rounds up to the next second. *)
Example Seconds_rounds_up :
  truncate (Seconds (2 ^ 30 * Second + 999999999)) = Some (2 ^ 30 + 1).
Proof. vm_compute. reflexivity. Qed.

Section ttl.

Context {Any : Type} (drv : mongo.Driver Any).

(** X15. A TTL of [k] whole seconds, for any [k] an [int32] holds, is stored as
    [k], on every platform: the conversion through [float64] is exact.  The
    client built has the URL given, the connection the driver returned and
    an empty Session Map, and its [SetTTL] asks for an expiry of [k]
    seconds. *)
Theorem whole_second_ttl unrepresentable url (k : Z) w tr conn w' :
  - 2 ^ 31 <= k < 2 ^ 31 ->
  mongo.respond drv (mongo.Connect url) w = (inr conn, w') ->
  NewMongoClient drv unrepresentable url (k * Second) w tr
  = ((Some {| URL := url; ExpDur := k; mcl := conn; sess := ∅ |}, None),
     w', tr ++ [mongo.Connect url])
  /\ forall st : State drv,
       self st = {| URL := url; ExpDur := k; mcl := conn; sess := ∅ |} ->
       issued st (snd (SetTTL drv st))
       = [mongo.IndexDropOne (tasks (self st)) request_ctx "TTL";
          mongo.IndexCreateOne (tasks (self st)) request_ctx (ttl_index k)].
Proof.
  intros Hk E. split.
  - unfold NewMongoClient. rewrite E.
    rewrite (int32_whole_seconds unrepresentable k Hk). reflexivity.
  - intros st Hst. unfold tasks, ttl_index, issued.
    drive; rewrite Hst; cbn [ExpDur mcl];
      rewrite <- app_assoc, drop_app_length; reflexivity.
Qed.

End ttl.

(** ** The further properties at work *)

(** Starting or committing ["tx-2"] leaves the entry of ["tx-1"] alone. *)
Lemma transactions_keep_other_entries_witness :
  "tx-2" <> "tx-1"
  /\ sess (self (snd (StartTransaction Stub.driver "tx-2"
                        (Stub.active Stub.healthy)))) !! "tx-1" = Some 7%nat
  /\ sess (self (snd (CommitTransaction Stub.driver "tx-2" (CallerContext 0)
                        (Stub.active Stub.healthy)))) !! "tx-1" = Some 7%nat.
Proof.
  assert ("tx-2" <> "tx-1") as Hne by discriminate.
  split; [exact Hne|].
  destruct (transactions_keep_other_entries Stub.driver "tx-2" "tx-1"
              (CallerContext 0) (Stub.active Stub.healthy) Hne)
    as [[Hs Hc] _].
  split; [exact (eq_trans Hs eq_refl) | exact (eq_trans Hc eq_refl)].
Defined.

(** On a fresh client, start then commit of ["tx-1"] gives the client back. *)
Lemma start_then_commit_restores_map_witness :
  sess (self (Stub.start Stub.healthy)) !! "tx-1" = None
  /\ self (snd (CommitTransaction Stub.driver "tx-1" (CallerContext 0)
                  (snd (StartTransaction Stub.driver "tx-1"
                          (Stub.start Stub.healthy)))))
     = Stub.client.
Proof.
  split; [reflexivity|].
  apply (start_then_commit_restores_map Stub.driver "tx-1" (CallerContext 0)
           (Stub.start Stub.healthy) 7%nat
           (snd (Stub.respond (mongo.StartSession 1%nat) Stub.healthy))
           (snd (Stub.respond (mongo.StartSession 1%nat) Stub.healthy))
           (snd (Stub.respond (mongo.StartSession 1%nat) Stub.healthy))
           eq_refl eq_refl eq_refl eq_refl).
Defined.

(** ["tx-1"] is mapped to session [3]; a restart maps it to session [7],
    and after the commit [3] is gone without a call on it. *)
Lemma restart_abandons_the_old_session_witness :
  sess (self (Build_State Stub.driver
                (with_sess (insert "tx-1" 3%nat) Stub.client) Stub.healthy []))
    !! "tx-1" = Some 3%nat
  /\ 3%nat <> 7%nat
  /\ sess (self (snd (StartTransaction Stub.driver "tx-1"
                        (Build_State Stub.driver
                           (with_sess (insert "tx-1" 3%nat) Stub.client)
                           Stub.healthy [])))) !! "tx-1" = Some 7%nat.
Proof.
  assert (3%nat <> 7%nat) as Hne by discriminate.
  assert (sess (self (Build_State Stub.driver
                        (with_sess (insert "tx-1" 3%nat) Stub.client)
                        Stub.healthy [])) !! "tx-1" = Some 3%nat) as Hold
      by reflexivity.
  split; [exact Hold|]. split; [exact Hne|].
  apply (restart_abandons_the_old_session Stub.driver "tx-1" (CallerContext 0)
           (Build_State Stub.driver
              (with_sess (insert "tx-1" 3%nat) Stub.client) Stub.healthy [])
           3%nat 7%nat
           (snd (Stub.respond (mongo.StartSession 1%nat) Stub.healthy))
           (snd (Stub.respond (mongo.StartSession 1%nat) Stub.healthy))
           (snd (Stub.respond (mongo.StartSession 1%nat) Stub.healthy))
           Hold Hne eq_refl eq_refl eq_refl).
Defined.

(** The deployment is unreachable: the start fails, the commit panics. *)
Lemma commit_after_failed_session_panics_witness :
  sess (self Offline.start) !! "tx-1" = None
  /\ fst (StartTransaction Offline.driver "tx-1" Offline.start)
     = Return (Nil, Some (DriverError Offline.timeout))
  /\ fst (CommitTransaction Offline.driver "tx-1" (CallerContext 0)
            (snd (StartTransaction Offline.driver "tx-1" Offline.start)))
     = Panic NilDereference.
Proof.
  split; [reflexivity|].
  apply (commit_after_failed_session_panics Offline.driver "tx-1"
           (CallerContext 0) Offline.start Offline.timeout tt eq_refl eq_refl).
Defined.

(** Transactions are refused: the start fails, the commit is attempted on
    session [7] all the same. *)
Lemma commit_after_failed_start_reaches_the_driver_witness :
  fst (StartTransaction Stub.driver "tx-1" (Stub.start Stub.no_transactions))
  = Return (Nil, Some (DriverError Stub.unacknowledged))
  /\ head (issued
             (snd (StartTransaction Stub.driver "tx-1"
                     (Stub.start Stub.no_transactions)))
             (snd (CommitTransaction Stub.driver "tx-1" (CallerContext 0)
                     (snd (StartTransaction Stub.driver "tx-1"
                             (Stub.start Stub.no_transactions))))))
     = Some (mongo.SessionCommitTransaction 7%nat (CallerContext 0)).
Proof.
  destruct (commit_after_failed_start_reaches_the_driver Stub.driver "tx-1"
              (CallerContext 0) (Stub.start Stub.no_transactions) 7%nat
              (snd (Stub.respond (mongo.StartSession 1%nat) Stub.no_transactions))
              Stub.unacknowledged
              (snd (Stub.respond (mongo.StartSession 1%nat) Stub.no_transactions))
              eq_refl eq_refl) as (H1 & H2 & _).
  split; [exact H1 | exact H2].
Defined.

(** Equal models, equal descriptors. *)
Lemma model_injective_witness :
  model {| Keys := [ {| Key := "task_id"; Desc := true |} ];
           Name := ""; Unique := true; Sparse := false |}
  = model {| Keys := [ {| Key := "task_id"; Desc := true |} ];
             Name := ""; Unique := true; Sparse := false |}
  /\ {| Keys := [ {| Key := "task_id"; Desc := true |} ];
        Name := ""; Unique := true; Sparse := false |}
     = {| Keys := [ {| Key := "task_id"; Desc := true |} ];
          Name := ""; Unique := true; Sparse := false |}.
Proof.
  split; [reflexivity|].
  apply (model_injective
           {| Keys := [ {| Key := "task_id"; Desc := true |} ];
              Name := ""; Unique := true; Sparse := false |}
           {| Keys := [ {| Key := "task_id"; Desc := true |} ];
              Name := ""; Unique := true; Sparse := false |}).
  reflexivity.
Defined.


(** One hour. *)
Lemma whole_second_ttl_witness :
  (- 2 ^ 31 <= 3600 < 2 ^ 31)
  /\ NewMongoClient Stub.driver Stub.indefinite "mongodb://localhost:27017"
       (3600 * Second) Stub.healthy []
     = ((Some {| URL := "mongodb://localhost:27017"; ExpDur := 3600;
                 mcl := 1%nat; sess := ∅ |}, None),
        Stub.healthy, [mongo.Connect "mongodb://localhost:27017"]).
Proof.
  assert (- 2 ^ 31 <= 3600 < 2 ^ 31) as Hk
      by (split; [discriminate | reflexivity]).
  split; [exact Hk|].
  apply (whole_second_ttl Stub.driver Stub.indefinite
           "mongodb://localhost:27017" 3600 Stub.healthy [] 1%nat Stub.healthy
           Hk eq_refl).
Defined.
